(** * Frame0 MCP server: the command bridge and its tool handlers

    A shallow embedding of the three program texts of the repository:

    - the fetch based server ([Part000]): [requestToFrame0] posts one HTTP
      request per command and its four tool handlers report the raw reply;
    - the first [index.ts] catalogue ([IndexV1]): fifteen tool handlers built
      on [executeCommand], [filterShape], [filterPage], [textResult] and
      [convertColor];
    - the second [index.ts] catalogue ([IndexV2]): eleven tool handlers.

    JavaScript values are a small inductive type, numbers are the binary64
    floating-point numbers of the language, promises are their final
    state (fulfilled, rejected or never settled), and the effects of a
    handler (messages handed to the transport, lines written with
    console.error) are threaded through an explicit world. *)

From Stdlib Require Import String Ascii List ZArith Lia Bool DecimalString.
From Stdlib Require Import PrimFloat FloatOps SpecFloat.
Import ListNotations.
Open Scope string_scope.

#[local] Set Warnings "-register-all".

(* ===================================================================== *)
(** ** JavaScript values, strings and JSON.stringify *)
(* ===================================================================== *)

Module Js.

(** The values that travel through the handlers.  A number is an IEEE 754
    binary64 value, as in the language, and the arithmetic of the handlers
    is the arithmetic of these.  An object is the list of its own properties
    in property order. *)
Inductive value : Type :=
| JUndefined
| JNull
| JBool (b : bool)
| JNum (n : float)
| JStr (s : string)
| JArr (items : list value)
| JObj (props : list (string * value)).

(** What a throw statement or a rejected promise carries: an Error object,
    with its name and message. *)
Record error : Type := mkError { err_name : string; err_message : string }.

(** new Error(message) *)
Definition Error (message : string) : error := mkError "Error" message.

(** new TypeError(message), raised by the runtime itself *)
Definition TypeError (message : string) : error := mkError "TypeError" message.

(** Error.prototype.toString, which a template literal applies to a caught
    error. *)
Definition error_toString (e : error) : string :=
  if String.eqb (err_name e) "" then err_message e
  else if String.eqb (err_message e) "" then err_name e
  else err_name e ++ ": " ++ err_message e.

Definition dquote : ascii := "034"%char.
Definition backslash : ascii := "092"%char.

Definition digits_of_Z (n : Z) : string :=
  NilZero.string_of_int (Z.to_int n).

(** The name of the property that holds the element of index [i]. *)
Definition index_key (i : nat) : string := digits_of_Z (Z.of_nat i).

Fixpoint zeros (n : nat) : string :=
  match n with
  | O => EmptyString
  | S n' => String "0" (zeros n')
  end.

(** Number::toString, for a positive finite number m * 2^e.  The digits are
    those of the shortest decimal s * 10^p that reads back as the number;
    among several of that length, the closest, and the even one on a tie. *)

(** Remove the trailing zeros of a significand, raising the power of ten. *)
Fixpoint strip_zeros (fuel : nat) (c p : Z) : Z * Z :=
  match fuel with
  | O => (c, p)
  | S fuel' =>
      if ((0 <? c) && (c mod 10 =? 0))%Z
      then strip_zeros fuel' (c / 10)%Z (p + 1)%Z
      else (c, p)
  end.

(** The least n, from [n] on, with num / den < 10^n. *)
Fixpoint decade (fuel : nat) (num den n : Z) : Z :=
  match fuel with
  | O => n
  | S fuel' =>
      if (if 0 <=? n then num <? 10 ^ n * den
          else num * 10 ^ (- n) <? den)%Z
      then n
      else decade fuel' num den (n + 1)%Z
  end.

(** A lower estimate of the decade of m * 2^e, at most three below it. *)
Definition estimate (m e : Z) : Z :=
  ((Z.log2 m + e) * 30103 / 100000 - 1)%Z.

(** Try significands of k, k + 1, ... digits for the number m * 2^e of
    decade n: the two multiples of 10^(n - k) next to the number are
    candidates, and one is accepted when it lies within the rounding
    interval of the number (closed when m is even, by round to even). *)
Fixpoint shortest (fuel : nat) (k : Z) (m e n : Z) : Z * Z :=
  let fn := if (0 <=? e - 2)%Z then (2 ^ (e - 2))%Z else 1%Z in
  let fd := if (0 <=? e - 2)%Z then 1%Z else (2 ^ (2 - e))%Z in
  let p := (n - k)%Z in
  let tn := if (0 <=? p)%Z then (10 ^ p)%Z else 1%Z in
  let td := if (0 <=? p)%Z then 1%Z else (10 ^ (- p))%Z in
  let unit := (tn * fd)%Z in
  let scale := (fn * td)%Z in
  let x := (4 * m * scale)%Z in
  let below := if ((m =? 2 ^ 52) && (-1074 <? e))%Z then 1%Z else 2%Z in
  let low := ((4 * m - below) * scale)%Z in
  let high := ((4 * m + 2) * scale)%Z in
  let inside v :=
    if Z.even m then ((low <=? v) && (v <=? high))%Z
    else ((low <? v) && (v <? high))%Z in
  let c := (x / unit)%Z in
  let down := inside (c * unit)%Z in
  let up := inside ((c + 1) * unit)%Z in
  let dist_down := (x - c * unit)%Z in
  let dist_up := ((c + 1) * unit - x)%Z in
  let pick_down :=
    down && (negb up || (dist_down <? dist_up)%Z
             || ((dist_down =? dist_up)%Z && Z.even c)) in
  match fuel with
  | O => (c, p)
  | S fuel' =>
      if pick_down then (c, p)
      else if up then ((c + 1)%Z, p)
      else shortest fuel' (k + 1)%Z m e n
  end.

Definition positive_toString (m e : Z) : string :=
  let num := if (0 <=? e)%Z then (m * 2 ^ e)%Z else m in
  let den := if (0 <=? e)%Z then 1%Z else (2 ^ (- e))%Z in
  let n0 := decade 8 num den (estimate m e) in
  let '(c, p) := shortest 17 1 m e n0 in
  let '(s, q) := strip_zeros 400 c p in
  let ds := digits_of_Z s in
  let k := Z.of_nat (String.length ds) in
  let n := (q + k)%Z in
  if ((k <=? n) && (n <=? 21))%Z then ds ++ zeros (Z.to_nat (n - k))
  else if ((0 <? n) && (n <=? 21))%Z then
    substring 0 (Z.to_nat n) ds ++ "."
      ++ substring (Z.to_nat n) (Z.to_nat (k - n)) ds
  else if ((-6 <? n) && (n <=? 0))%Z then
    "0." ++ zeros (Z.to_nat (- n)) ++ ds
  else
    let ex := (n - 1)%Z in
    let mant := if (k =? 1)%Z then ds
                else substring 0 1 ds ++ "."
                       ++ substring 1 (Z.to_nat (k - 1)) ds in
    mant ++ "e" ++ (if (ex <? 0)%Z then "-" else "+")
      ++ digits_of_Z (Z.abs ex).

(** Number::toString: what a template literal writes for a number. *)
Definition number_toString (x : float) : string :=
  match Prim2SF x with
  | S754_nan => "NaN"
  | S754_zero _ => "0"
  | S754_infinity s => if s then "-Infinity" else "Infinity"
  | S754_finite s m e =>
      (if s then "-" else "") ++ positive_toString (Zpos m) e
  end.

(** What JSON.stringify writes for a number: null when it is not finite. *)
Definition number_json (x : float) : string :=
  match Prim2SF x with
  | S754_nan | S754_infinity _ => "null"
  | _ => number_toString x
  end.

Definition hex_digit (n : nat) : ascii :=
  nth n ["0"; "1"; "2"; "3"; "4"; "5"; "6"; "7"; "8"; "9";
         "a"; "b"; "c"; "d"; "e"; "f"]%char "0"%char.

(** One character of a JSON string literal (QuoteJSONString). *)
Definition quote_char (c : ascii) : string :=
  let n := nat_of_ascii c in
  if Nat.eqb n 34 then String backslash (String dquote EmptyString)
  else if Nat.eqb n 92 then String backslash (String backslash EmptyString)
  else if Nat.eqb n 8 then String backslash "b"
  else if Nat.eqb n 9 then String backslash "t"
  else if Nat.eqb n 10 then String backslash "n"
  else if Nat.eqb n 12 then String backslash "f"
  else if Nat.eqb n 13 then String backslash "r"
  else if Nat.ltb n 32 then
    String backslash
      ("u00" ++ String (hex_digit (n / 16)) (String (hex_digit (n mod 16)) EmptyString))
  else String c EmptyString.

Fixpoint quote_body (s : string) : string :=
  match s with
  | EmptyString => EmptyString
  | String c rest => quote_char c ++ quote_body rest
  end.

Definition quote (s : string) : string :=
  String dquote (quote_body s ++ String dquote EmptyString).

(** Array.prototype.join on strings *)
Definition join (sep : string) (parts : list string) : string :=
  String.concat sep parts.

(** What string concatenation and template literals make of the result of
    JSON.stringify, which is undefined on the undefined value. *)
Definition str_of (s : option string) : string :=
  match s with
  | Some s => s
  | None => "undefined"
  end.

(** JSON.stringify(v): [None] is the undefined result.  An undefined array
    element is written null, an undefined property is left out. *)
Fixpoint JSON_stringify (v : value) : option string :=
  match v with
  | JUndefined => None
  | JNull => Some "null"
  | JBool b => Some (if b then "true" else "false")
  | JNum n => Some (number_json n)
  | JStr s => Some (quote s)
  | JArr items =>
      Some ("[" ++ join ","
              (map (fun x => match JSON_stringify x with
                             | Some s => s
                             | None => "null"
                             end) items) ++ "]")
  | JObj props =>
      Some ("{" ++ join ","
              (flat_map (fun kv => match JSON_stringify (snd kv) with
                                   | Some s => [quote (fst kv) ++ ":" ++ s]
                                   | None => []
                                   end) props) ++ "}")
  end.

(** ToString, as applied by a template literal to a value. *)
Fixpoint toString (v : value) : string :=
  match v with
  | JUndefined => "undefined"
  | JNull => "null"
  | JBool b => if b then "true" else "false"
  | JNum n => number_toString n
  | JStr s => s
  | JArr items =>
      join "," (map (fun x => match x with
                              | JUndefined | JNull => ""
                              | _ => toString x
                              end) items)
  | JObj _ => "[object Object]"
  end.

(** *** Objects *)

(** o[k] on the own properties of an object *)
Fixpoint obj_get (k : string) (props : list (string * value)) : option value :=
  match props with
  | [] => None
  | (k', v) :: rest => if String.eqb k k' then Some v else obj_get k rest
  end.

(** o[k] = v: an existing property keeps its place, a new one goes last. *)
Fixpoint obj_set (k : string) (v : value) (props : list (string * value))
  : list (string * value) :=
  match props with
  | [] => [(k, v)]
  | (k', v') :: rest =>
      if String.eqb k k' then (k, v) :: rest else (k', v') :: obj_set k v rest
  end.

Fixpoint indexed_from (i : nat) (items : list value) : list (string * value) :=
  match items with
  | [] => []
  | x :: rest => (index_key i, x) :: indexed_from (S i) rest
  end.

Fixpoint chars_of (s : string) : list value :=
  match s with
  | EmptyString => []
  | String c rest => JStr (String c EmptyString) :: chars_of rest
  end.

(** The own enumerable properties that an object spread copies:
    those of an object, the elements of an array, the characters of a string,
    nothing for the other values. *)
Definition spread (v : value) : list (string * value) :=
  match v with
  | JObj props => fold_left (fun acc kv => obj_set (fst kv) (snd kv) acc) props []
  | JArr items => indexed_from 0 items
  | JStr s => indexed_from 0 (chars_of s)
  | _ => []
  end.

(** Array.isArray *)
Definition isArray (v : value) : bool :=
  match v with
  | JArr _ => true
  | _ => false
  end.

(** Whether a value is an object (arrays included), on which a property can
    be read and created. *)
Definition is_object (v : value) : bool :=
  match v with
  | JArr _ | JObj _ => true
  | _ => false
  end.

(** xs.map(f) for a callback that returns or throws: the first throw ends
    the traversal. *)
Fixpoint map_sum {A B : Type} (f : A -> error + B) (xs : list A)
  : error + list B :=
  match xs with
  | [] => inr []
  | x :: rest =>
      match f x with
      | inl e => inl e
      | inr y =>
          match map_sum f rest with
          | inl e => inl e
          | inr ys => inr (y :: ys)
          end
      end
  end.

(** typeof, for the runtime messages *)
Definition typeof (v : value) : string :=
  match v with
  | JUndefined => "undefined"
  | JNull => "object"
  | JBool _ => "boolean"
  | JNum _ => "number"
  | JStr _ => "string"
  | JArr _ | JObj _ => "object"
  end.

(** v[k] for a property name that no built-in prototype defines (children is
    the only one the sources read): reading from undefined or null throws. *)
Definition get_prop (v : value) (k : string) : error + value :=
  match v with
  | JUndefined | JNull =>
      inl (TypeError ("Cannot read properties of " ++ toString v
                        ++ " (reading '" ++ k ++ "')"))
  | JObj props =>
      match obj_get k props with
      | Some x => inr x
      | None => inr JUndefined
      end
  | _ => inr JUndefined
  end.

(** Whether the assignment v[k] = x goes through; the sources are modules,
    hence strict code, where creating a property on a primitive throws. *)
Definition can_assign (v : value) (k : string) : error + unit :=
  match v with
  | JUndefined | JNull =>
      inl (TypeError ("Cannot set properties of " ++ toString v
                        ++ " (setting '" ++ k ++ "')"))
  | JBool _ | JNum _ | JStr _ =>
      inl (TypeError ("Cannot create property '" ++ k ++ "' on " ++ typeof v
                        ++ " '" ++ toString v ++ "'"))
  | JArr _ | JObj _ => inr tt
  end.

(** Optional arguments: an absent one is the undefined value. *)
Definition opt {A : Type} (f : A -> value) (x : option A) : value :=
  match x with
  | Some a => f a
  | None => JUndefined
  end.

Definition JNums (l : list float) : value := JArr (map JNum l).

End Js.

Import Js.

(* ===================================================================== *)
(** ** Promises and effects *)
(* ===================================================================== *)

Module Async.

(** The final state of a promise: an async function settles at most once, so
    its promise ends fulfilled, rejected, or never settles at all. *)
Inductive outcome (A : Type) : Type :=
| Fulfilled (a : A)
| Rejected (e : error)
| Pending.

Arguments Fulfilled {A} a.
Arguments Rejected {A} e.
Arguments Pending {A}.

Definition settled {A : Type} (o : outcome A) : bool :=
  match o with
  | Pending => false
  | _ => true
  end.

Section Monad.

(** What is handed to the transport and what it answers. *)
Variables Req Resp : Type.

(** The observable effects: the messages sent, oldest first, and the errors
    written with console.error. *)
Record world : Type := mkWorld { sent : list Req; console : list error }.

(** The controlled application and the channel to it: given the messages
    sent so far and the new one, how the promise of the reply ends. *)
Definition transport : Type := list Req -> Req -> outcome Resp.

Definition M (A : Type) : Type := transport -> world -> world * outcome A.

Definition ret {A : Type} (a : A) : M A := fun _ w => (w, Fulfilled a).

(** throw e *)
Definition throw {A : Type} (e : error) : M A := fun _ w => (w, Rejected e).

(** const x = await m; k x *)
Definition bind {A B : Type} (m : M A) (k : A -> M B) : M B :=
  fun t w =>
    match m t w with
    | (w', Fulfilled a) => k a t w'
    | (w', Rejected e) => (w', Rejected e)
    | (w', Pending) => (w', Pending)
    end.

(** try { body } catch (error) { handler error } *)
Definition try_catch {A : Type} (body : M A) (handler : error -> M A) : M A :=
  fun t w =>
    match body t w with
    | (w', Rejected e) => handler e t w'
    | r => r
    end.

(** Hand one message to the transport and await the reply. *)
Definition send (r : Req) : M Resp :=
  fun t w => (mkWorld (sent w ++ [r]) (console w), t (sent w) r).

(** console.error(e) *)
Definition console_error (e : error) : M unit :=
  fun _ w => (mkWorld (sent w) (console w ++ [e]), Fulfilled tt).

(** A synchronous call that returns or throws. *)
Definition lift {A : Type} (x : error + A) : M A :=
  match x with
  | inl e => throw e
  | inr a => ret a
  end.

(** await p, for a promise whose end is known *)
Definition await {A : Type} (p : outcome A) : M A := fun _ w => (w, p).

(** xs.map(f) for a callback that may throw *)
Fixpoint mapM {A B : Type} (f : A -> M B) (xs : list A) : M (list B) :=
  match xs with
  | [] => ret []
  | x :: rest =>
      bind (f x) (fun y => bind (mapM f rest) (fun ys => ret (y :: ys)))
  end.

(** The messages a run adds to those already sent. *)
Definition new_sent (before after : world) : list Req :=
  skipn (length (sent before)) (sent after).

End Monad.

Arguments mkWorld {Req} sent console.
Arguments sent {Req} w.
Arguments console {Req} w.
Arguments ret {Req Resp A} a.
Arguments throw {Req Resp A} e.
Arguments bind {Req Resp A B} m k.
Arguments try_catch {Req Resp A} body handler.
Arguments send {Req Resp} r.
Arguments console_error {Req Resp} e.
Arguments lift {Req Resp A} x.
Arguments await {Req Resp A} p.
Arguments mapM {Req Resp A B} f xs.
Arguments new_sent {Req} before after.

Definition empty_world {Req : Type} : world Req := mkWorld [] [].

End Async.

Import Async.

Declare Scope async_scope.
Delimit Scope async_scope with async.
Notation "x <- m ;; k" := (bind m (fun x => k))
  (at level 61, m at next level, right associativity) : async_scope.
Notation "m ;;; k" := (bind m (fun _ => k))
  (at level 61, right associativity) : async_scope.
Open Scope async_scope.
Open Scope float_scope.

(* ===================================================================== *)
(** ** The fetch based server (src/unnamed/part_000) *)
(* ===================================================================== *)

Module Part000.

(** What fetch(url, init) puts on the wire. *)
Record Request : Type := mkRequest {
  url : string;
  method : string;
  headers : list (string * string);
  body : option string
}.

(** What the handlers look at in a Response: res.ok, and how the promise of
    res.json() ends. *)
Record Response : Type := mkResponse {
  ok : bool;
  json : outcome value
}.

Definition Http : Type -> Type := M Request Response.

Definition URL : string := "http://localhost:3000".

(** fetch(url, init) *)
Definition fetch (u : string) (m : string) (h : list (string * string))
  (b : option string) : Http Response :=
  send (mkRequest u m h b).

(** async function requestToFrame0(slug, params = {}) *)
Definition requestToFrame0 (slug : string) (params : value) : Http value :=
  let params := match params with JUndefined => JObj [] | _ => params end in
  res <- fetch (URL ++ slug) "POST" [("Content-Type", "application/json")]
           (JSON_stringify params) ;;
  if negb (ok res) then throw (Error "Failed to create rectangle")
  else
    data <- await (json res) ;;
    ret data.

(** The result every handler builds:
    { content: [ { type: text, text: JSON.stringify(data) } ] } *)
Definition text_content (data : value) : value :=
  JObj [("content",
         JArr [JObj [("type", JStr "text");
                     ("text", opt JStr (JSON_stringify data))]])].

(** The frame types of the create_frame schema *)
Inductive frame_name : Type :=
| Phone | Tablet | Desktop | Browser | Watch | TV | CustomFrame.

Definition frame_name_string (n : frame_name) : string :=
  match n with
  | Phone => "Phone"
  | Tablet => "Tablet"
  | Desktop => "Desktop"
  | Browser => "Browser"
  | Watch => "Watch"
  | TV => "TV"
  | CustomFrame => "Custom Frame"
  end.

Inductive horz_align : Type := AlignLeft | AlignCenter | AlignRight.
Inductive vert_align : Type := AlignTop | AlignMiddle | AlignBottom.

Definition horz_align_value (a : horz_align) : value :=
  JStr match a with
       | AlignLeft => "left"
       | AlignCenter => "center"
       | AlignRight => "right"
       end.

Definition vert_align_value (a : vert_align) : value :=
  JStr match a with
       | AlignTop => "top"
       | AlignMiddle => "middle"
       | AlignBottom => "bottom"
       end.

Definition create_frame (name : frame_name) (left top width height : float)
  : Http value :=
  data <- requestToFrame0 "/create_shape_from_library"
            (JObj [("query", JStr (frame_name_string name ++ "&@Frame"));
                   ("left", JNum left);
                   ("top", JNum top);
                   ("width", JNum width);
                   ("height", JNum height)]) ;;
  ret (text_content data).

Definition create_text (name parentId : option string) (left top : float)
  (text : string) (fontColor : option string) : Http value :=
  data <- requestToFrame0 "/create_shape"
            (JObj [("type", JStr "Text");
                   ("parentId", opt JStr parentId);
                   ("name", opt JStr name);
                   ("left", JNum left);
                   ("top", JNum top);
                   ("text", JStr text);
                   ("fontColor", opt JStr fontColor)]) ;;
  ret (text_content data).

Definition create_rectangle (name parentId : option string)
  (left top width height : float) (fillColor strokeColor fontColor : option string)
  (fontSize : option float) (text : option string) (horzAlign : option horz_align)
  (vertAlign : option vert_align) (corners : option (list float)) : Http value :=
  data <- requestToFrame0 "/create_shape"
            (JObj [("type", JStr "Rectangle");
                   ("name", opt JStr name);
                   ("parentId", opt JStr parentId);
                   ("left", JNum left);
                   ("top", JNum top);
                   ("width", JNum width);
                   ("height", JNum height);
                   ("fillColor", opt JStr fillColor);
                   ("strokeColor", opt JStr strokeColor);
                   ("fontColor", opt JStr fontColor);
                   ("fontSize", opt JNum fontSize);
                   ("text", opt JStr text);
                   ("horzAlign", opt horz_align_value horzAlign);
                   ("vertAlign", opt vert_align_value vertAlign);
                   ("corners", opt JNums corners)]) ;;
  ret (text_content data).

(** update_shape receives the id and, in others, the remaining arguments the
    caller gave: the object { id, ...others } is posted. *)
Definition update_shape (id : string) (others : list (string * value))
  : Http value :=
  data <- requestToFrame0 "/update_shape"
            (JObj (fold_left (fun acc kv => obj_set (fst kv) (snd kv) acc)
                     others [("id", JStr id)])) ;;
  ret (text_content data).

(** The tool catalogue: one constructor per registered tool, carrying the
    validated arguments its handler destructures. *)
Inductive tool_call : Type :=
| CreateFrame (name : frame_name) (left top width height : float)
| CreateText (name parentId : option string) (left top : float) (text : string)
    (fontColor : option string)
| CreateRectangle (name parentId : option string) (left top width height : float)
    (fillColor strokeColor fontColor : option string) (fontSize : option float)
    (text : option string) (horzAlign : option horz_align)
    (vertAlign : option vert_align) (corners : option (list float))
| UpdateShape (id : string) (others : list (string * value)).

Definition handler (c : tool_call) : Http value :=
  match c with
  | CreateFrame name x y w h => create_frame name x y w h
  | CreateText name parentId x y text fontColor =>
      create_text name parentId x y text fontColor
  | CreateRectangle name parentId x y w h fillColor strokeColor fontColor
      fontSize text horzAlign vertAlign corners =>
      create_rectangle name parentId x y w h fillColor strokeColor fontColor
        fontSize text horzAlign vertAlign corners
  | UpdateShape id others => update_shape id others
  end.

End Part000.

(* ===================================================================== *)
(** ** The first index.ts catalogue (src/src/index.ts, lines 1 to 683) *)
(* ===================================================================== *)

(** One call of the core operation: executeCommand(name, args).  The module
    utils.js that defines it is not among the sources, so the operation is
    the transport of the handlers: a call is recorded in the world and its
    promise ends as the environment decides.  An omitted args is the
    undefined value. *)
Definition Command : Type := (string * value)%type.

Definition Bridge : Type -> Type := M Command value.

Definition executeCommand (name : string) (args : value) : Bridge value :=
  send (name, args).

Module IndexV1.

Inductive frame_type : Type :=
| phone | tablet | desktop | browser | watch | tv.

Record size : Type := mkSize { width : float; height : float }.

Definition FRAME_NAME (t : frame_type) : string :=
  match t with
  | phone => "Phone"
  | tablet => "Tablet"
  | desktop => "Desktop"
  | browser => "Browser"
  | watch => "Watch"
  | tv => "TV"
  end.

Definition FRAME_SIZE (t : frame_type) : size :=
  match t with
  | phone => mkSize 320 690
  | tablet => mkSize 520 790
  | desktop => mkSize 800 600
  | browser => mkSize 800 600
  | watch => mkSize 198 242
  | tv => mkSize 960 570
  end.

Definition FRAME_HEADER_HEIGHT (t : frame_type) : float :=
  match t with
  | phone => 0
  | tablet => 0
  | desktop => 32
  | browser => 76
  | watch => 0
  | tv => 0
  end.

Inductive text_type : Type := label | paragraph | heading | link | normal.

Definition text_type_string (t : text_type) : string :=
  match t with
  | label => "label"
  | paragraph => "paragraph"
  | heading => "heading"
  | link => "link"
  | normal => "normal"
  end.

(** type === paragraph, on the optional argument *)
Definition is_paragraph (t : option text_type) : bool :=
  match t with
  | Some paragraph => true
  | _ => false
  end.

Inductive icon_size : Type := small | medium | large | extra_large.

(** The size table of create_icon, indexed by the size argument. *)
Definition icon_size_table (s : icon_size) : option float :=
  match s with
  | small => Some 16
  | medium => Some 24
  | large => Some 32
  | extra_large => Some 48
  end.

(** x ?? d *)
Definition nullish (x : option float) (d : float) : float :=
  match x with
  | Some v => v
  | None => d
  end.

Definition points_value (points : list (float * float)) : value :=
  JArr (map (fun p => JArr [JNum (fst p); JNum (snd p)]) points).

Section Handlers.

(** The helpers imported from utils.js and colors.js, which are not among
    the sources.  The two filters inspect a payload received from the
    application and may throw; convertColor and textResult are taken to
    return. *)
Variable filterShape : value -> error + value.
Variable filterPage : value -> error + value.
Variable convertColor : option string -> value.
Variable textResult : string -> value.

Definition create_frame (frameType : frame_type) (name : string)
  (left top : float) (fillColor : option string) : Bridge value :=
  try_catch
    (let frameHeaderHeight := FRAME_HEADER_HEIGHT frameType in
     let frameSize := FRAME_SIZE frameType in
     let frameName := FRAME_NAME frameType in
     shapeId <- executeCommand "shape:create-shape-from-library-by-query"
                  (JObj [("query", JStr (frameName ++ "&@Frame"));
                         ("shapeProps",
                          JObj [("name", JStr name);
                                ("left", JNum left);
                                ("top", JNum (top - frameHeaderHeight));
                                ("width", JNum (width frameSize));
                                ("height",
                                 JNum (height frameSize + frameHeaderHeight));
                                ("fillColor", convertColor fillColor)])]) ;;
     executeCommand "view:fit-to-screen" JUndefined ;;;
     data <- executeCommand "shape:get-shape" (JObj [("shapeId", shapeId)]) ;;
     shape <- lift (filterShape data) ;;
     ret (textResult
            ("Created frame: " ++
             str_of (JSON_stringify
                       (JObj (obj_set "height"
                                (JNum (height frameSize + frameHeaderHeight))
                                (obj_set "top" (JNum (top - frameHeaderHeight))
                                   (spread shape))))))))
    (fun error =>
       console_error error ;;;
       ret (textResult ("Failed to create frame: " ++ error_toString error))).

Definition create_rectangle (name : string) (parentId : option string)
  (left top width height : float) (fillColor strokeColor : option string)
  (corners : option (list float)) : Bridge value :=
  try_catch
    (shapeId <- executeCommand "shape:create-shape"
                  (JObj [("type", JStr "Rectangle");
                         ("shapeProps",
                          JObj [("name", JStr name);
                                ("left", JNum left);
                                ("top", JNum top);
                                ("width", JNum width);
                                ("height", JNum height);
                                ("fillColor", convertColor fillColor);
                                ("strokeColor", convertColor strokeColor);
                                ("corners", opt JNums corners)]);
                         ("parentId", opt JStr parentId)]) ;;
     data <- executeCommand "shape:get-shape" (JObj [("shapeId", shapeId)]) ;;
     shape <- lift (filterShape data) ;;
     ret (textResult
            ("Created rectangle: " ++ str_of (JSON_stringify shape))))
    (fun error =>
       console_error error ;;;
       ret (textResult
              ("Failed to create rectangle: " ++ error_toString error))).

Definition create_ellipse (name : string) (parentId : option string)
  (left top width height : float) (fillColor strokeColor : option string)
  : Bridge value :=
  try_catch
    (shapeId <- executeCommand "shape:create-shape"
                  (JObj [("type", JStr "Ellipse");
                         ("shapeProps",
                          JObj [("name", JStr name);
                                ("left", JNum left);
                                ("top", JNum top);
                                ("width", JNum width);
                                ("height", JNum height);
                                ("fillColor", convertColor fillColor);
                                ("strokeColor", convertColor strokeColor)]);
                         ("parentId", opt JStr parentId)]) ;;
     data <- executeCommand "shape:get-shape" (JObj [("shapeId", shapeId)]) ;;
     shape <- lift (filterShape data) ;;
     ret (textResult ("Created ellipse: " ++ str_of (JSON_stringify shape))))
    (fun error =>
       console_error error ;;;
       ret (textResult
              ("Failed to create ellipse: " ++ error_toString error))).

Definition create_text (type : option text_type) (name : string)
  (parentId : option string) (left top : float) (width : option float)
  (text : string) (fontColor : option string) (fontSize : option float)
  : Bridge value :=
  try_catch
    (shapeId <- executeCommand "shape:create-shape"
                  (JObj [("type", JStr "Text");
                         ("shapeProps",
                          JObj [("name", JStr name);
                                ("left", JNum left);
                                ("width", opt JNum width);
                                ("top", JNum top);
                                ("text", JStr text);
                                ("fontColor", convertColor fontColor);
                                ("fontSize", opt JNum fontSize);
                                ("wordWrap", JBool (is_paragraph type))]);
                         ("parentId", opt JStr parentId)]) ;;
     data <- executeCommand "shape:get-shape" (JObj [("shapeId", shapeId)]) ;;
     shape <- lift (filterShape data) ;;
     ret (textResult
            ("Created text: " ++
             str_of (JSON_stringify
                       (JObj (obj_set "textType"
                                (opt (fun t => JStr (text_type_string t)) type)
                                (spread shape)))))))
    (fun error =>
       console_error error ;;;
       ret (textResult ("Failed to create text: " ++ error_toString error))).

Definition create_line (name : string) (parentId : option string)
  (points : list (float * float)) (fillColor strokeColor : option string)
  : Bridge value :=
  try_catch
    (shapeId <- executeCommand "shape:create-shape"
                  (JObj [("type", JStr "Line");
                         ("shapeProps",
                          JObj [("name", JStr name);
                                ("path", points_value points);
                                ("fillColor", convertColor fillColor);
                                ("strokeColor", convertColor strokeColor)]);
                         ("parentId", opt JStr parentId)]) ;;
     data <- executeCommand "shape:get-shape" (JObj [("shapeId", shapeId)]) ;;
     shape <- lift (filterShape data) ;;
     ret (textResult ("Created line: " ++ str_of (JSON_stringify shape))))
    (fun error =>
       console_error error ;;;
       ret (textResult ("Failed to create line: " ++ error_toString error))).

Definition create_icon (name : string) (parentId : option string)
  (left top : float) (size : icon_size) (strokeColor : option string)
  : Bridge value :=
  try_catch
    (let sizeValue := icon_size_table size in
     shapeId <- executeCommand "shape:create-icon"
                  (JObj [("iconName", JStr name);
                         ("shapeProps",
                          JObj [("left", JNum left);
                                ("top", JNum top);
                                ("width", JNum (nullish sizeValue 24));
                                ("height", JNum (nullish sizeValue 24));
                                ("strokeColor", convertColor strokeColor)]);
                         ("parentId", opt JStr parentId)]) ;;
     data <- executeCommand "shape:get-shape" (JObj [("shapeId", shapeId)]) ;;
     shape <- lift (filterShape data) ;;
     ret (textResult ("Created icon: " ++ str_of (JSON_stringify shape))))
    (fun error =>
       console_error error ;;;
       ret (textResult ("Failed to create icon: " ++ error_toString error))).

(** The schema of update_shape has a text argument as well, which the
    handler does not destructure and never sends. *)
Definition update_shape (shapeId : string) (name : option string)
  (width height : option float) (strokeColor fillColor fontColor : option string)
  (fontSize : option float) (corners : option (list float)) : Bridge value :=
  try_catch
    (updatedId <- executeCommand "shape:update-shape"
                    (JObj [("shapeId", JStr shapeId);
                           ("shapeProps",
                            JObj [("name", opt JStr name);
                                  ("width", opt JNum width);
                                  ("height", opt JNum height);
                                  ("fillColor", convertColor fillColor);
                                  ("strokeColor", convertColor strokeColor);
                                  ("fontColor", convertColor fontColor);
                                  ("fontSize", opt JNum fontSize);
                                  ("corners", opt JNums corners)])]) ;;
     data <- executeCommand "shape:get-shape"
               (JObj [("shapeId", updatedId)]) ;;
     shape <- lift (filterShape data) ;;
     ret (textResult ("Updated shape: " ++ str_of (JSON_stringify shape))))
    (fun error =>
       console_error error ;;;
       ret (textResult ("Failed to update shape: " ++ error_toString error))).

Definition delete_shape (shapeId : string) : Bridge value :=
  try_catch
    (executeCommand "edit:delete"
       (JObj [("shapeIdArray", JArr [JStr shapeId])]) ;;;
     ret (textResult ("Deleted shape of id: " ++ shapeId)))
    (fun error =>
       console_error error ;;;
       ret (textResult ("Failed to delete shape: " ++ error_toString error))).

Definition get_available_icons : Bridge value :=
  try_catch
    (data <- executeCommand "shape:get-available-icons" (JObj []) ;;
     ret (textResult ("Available icons: " ++ str_of (JSON_stringify data))))
    (fun error =>
       console_error error ;;;
       ret (textResult
              ("Failed to get available icons: " ++ error_toString error))).

Definition move_shape (shapeId : string) (dx dy : float) : Bridge value :=
  try_catch
    (executeCommand "shape:move"
       (JObj [("shapeId", JStr shapeId); ("dx", JNum dx); ("dy", JNum dy)]) ;;;
     ret (textResult
            ("Moved shape (id: " ++ shapeId ++ ") as (" ++ number_toString dx
               ++ ", " ++ number_toString dy ++ ")")))
    (fun error =>
       console_error error ;;;
       ret (textResult
              ("Failed to get available icons: " ++ error_toString error))).

Definition add_page (name : string) : Bridge value :=
  try_catch
    (pageData <- executeCommand "page:add"
                   (JObj [("pageProps", JObj [("name", JStr name)])]) ;;
     ret (textResult ("Added page: " ++ str_of (JSON_stringify pageData))))
    (fun error =>
       console_error error ;;;
       ret (textResult ("Failed to add new page: " ++ error_toString error))).

Definition get_current_page_id : Bridge value :=
  try_catch
    (pageId <- executeCommand "page:get-current-page" JUndefined ;;
     ret (textResult ("Current page ID is " ++ toString pageId ++ ",")))
    (fun error =>
       console_error error ;;;
       ret (textResult
              ("Failed to get current page: " ++ error_toString error))).

Definition set_current_page_by_id (pageId : string) : Bridge value :=
  try_catch
    (executeCommand "page:set-current-page"
       (JObj [("pageId", JStr pageId)]) ;;;
     ret (textResult ("Current page ID is " ++ pageId)))
    (fun error =>
       console_error error ;;;
       ret (textResult
              ("Failed to set current page: " ++ error_toString error))).

Definition get_page (pageId : option string) (exportShapes : bool)
  : Bridge value :=
  try_catch
    (pageData <- executeCommand "page:get"
                   (JObj [("pageId", opt JStr pageId);
                          ("exportShapes", JBool exportShapes)]) ;;
     page <- lift (filterPage pageData) ;;
     ret (textResult ("The page data: " ++ str_of (JSON_stringify page))))
    (fun error =>
       console_error error ;;;
       ret (textResult ("Failed to get page data: " ++ error_toString error))).

(** The elements of an array value; the handler below reaches this only
    with an array. *)
Definition elements (v : value) : list value :=
  match v with
  | JArr items => items
  | _ => []
  end.

(** docData is local to the handler and read once more after the
    assignment docData.children = []: that read yields the array just
    stored, which is what [children] is bound to below. *)
Definition get_all_pages (exportShapes : bool) : Bridge value :=
  try_catch
    (docData <- executeCommand "doc:get"
                  (JObj [("exportPages", JBool true);
                         ("exportShapes", JBool exportShapes)]) ;;
     found <- lift (get_prop docData "children") ;;
     children <- (if negb (isArray found)
                  then lift (can_assign docData "children") ;;; ret (JArr [])
                  else ret found) ;;
     pageArray <- mapM (fun page => lift (filterPage page))
                    (elements children) ;;
     ret (textResult
            ("The all pages data: " ++
             str_of (JSON_stringify (JArr pageArray)))))
    (fun error =>
       console_error error ;;;
       ret (textResult ("Failed to get page data: " ++ error_toString error))).

Inductive tool_call : Type :=
| CreateFrame (frameType : frame_type) (name : string) (left top : float)
    (fillColor : option string)
| CreateRectangle (name : string) (parentId : option string)
    (left top width height : float) (fillColor strokeColor : option string)
    (corners : option (list float))
| CreateEllipse (name : string) (parentId : option string)
    (left top width height : float) (fillColor strokeColor : option string)
| CreateText (type : option text_type) (name : string)
    (parentId : option string) (left top : float) (width : option float)
    (text : string) (fontColor : option string) (fontSize : option float)
| CreateLine (name : string) (parentId : option string)
    (points : list (float * float)) (fillColor strokeColor : option string)
| CreateIcon (name : string) (parentId : option string) (left top : float)
    (size : icon_size) (strokeColor : option string)
| UpdateShape (shapeId : string) (name : option string)
    (width height : option float) (strokeColor fillColor fontColor : option string)
    (fontSize : option float) (corners : option (list float))
| DeleteShape (shapeId : string)
| GetAvailableIcons
| MoveShape (shapeId : string) (dx dy : float)
| AddPage (name : string)
| GetCurrentPageId
| SetCurrentPageById (pageId : string)
| GetPage (pageId : option string) (exportShapes : bool)
| GetAllPages (exportShapes : bool).

Definition handler (c : tool_call) : Bridge value :=
  match c with
  | CreateFrame frameType name x y fillColor =>
      create_frame frameType name x y fillColor
  | CreateRectangle name parentId x y w h fillColor strokeColor corners =>
      create_rectangle name parentId x y w h fillColor strokeColor corners
  | CreateEllipse name parentId x y w h fillColor strokeColor =>
      create_ellipse name parentId x y w h fillColor strokeColor
  | CreateText type name parentId x y w text fontColor fontSize =>
      create_text type name parentId x y w text fontColor fontSize
  | CreateLine name parentId points fillColor strokeColor =>
      create_line name parentId points fillColor strokeColor
  | CreateIcon name parentId x y sz strokeColor =>
      create_icon name parentId x y sz strokeColor
  | UpdateShape shapeId name w h strokeColor fillColor fontColor fontSize
      corners =>
      update_shape shapeId name w h strokeColor fillColor fontColor fontSize
        corners
  | DeleteShape shapeId => delete_shape shapeId
  | GetAvailableIcons => get_available_icons
  | MoveShape shapeId dx dy => move_shape shapeId dx dy
  | AddPage name => add_page name
  | GetCurrentPageId => get_current_page_id
  | SetCurrentPageById pageId => set_current_page_by_id pageId
  | GetPage pageId exportShapes => get_page pageId exportShapes
  | GetAllPages exportShapes => get_all_pages exportShapes
  end.

End Handlers.

End IndexV1.

(* ===================================================================== *)
(** ** The second index.ts catalogue (src/src/index.ts, lines 684 to 1297) *)
(* ===================================================================== *)

Module IndexV2.

Inductive frame_type : Type :=
| Phone | Tablet | Desktop | Browser | Watch | TV | CustomFrame.

Definition frame_type_string (t : frame_type) : string :=
  match t with
  | Phone => "Phone"
  | Tablet => "Tablet"
  | Desktop => "Desktop"
  | Browser => "Browser"
  | Watch => "Watch"
  | TV => "TV"
  | CustomFrame => "Custom Frame"
  end.

Definition points_value (points : list (float * float)) : value :=
  JArr (map (fun p => JArr [JNum (fst p); JNum (snd p)]) points).

Section Handlers.

(** The helpers imported from utils.js, which is not among the sources. *)
Variable filterShape : value -> error + value.
Variable textResult : string -> value.

Definition create_frame (frameType : frame_type) (left top width height : float)
  (fillColor : option string) : Bridge value :=
  try_catch
    (shapeId <- executeCommand "shape:create-shape-from-library-by-query"
                  (JObj [("query",
                          JStr (frame_type_string frameType ++ "&@Frame"));
                         ("shapeProps",
                          JObj [("left", JNum left);
                                ("top", JNum top);
                                ("width", JNum width);
                                ("height", JNum height);
                                ("fillColor", opt JStr fillColor)])]) ;;
     executeCommand "view:fit-to-screen" JUndefined ;;;
     data <- executeCommand "shape:get-shape" (JObj [("shapeId", shapeId)]) ;;
     shape <- lift (filterShape data) ;;
     ret (textResult ("Created frame: " ++ str_of (JSON_stringify shape))))
    (fun error =>
       console_error error ;;;
       ret (textResult ("Failed to create frame: " ++ error_toString error))).

Definition create_rectangle (name parentId : option string)
  (left top width height : float) (fillColor strokeColor : option string)
  (corners : option (list float)) : Bridge value :=
  try_catch
    (shapeId <- executeCommand "shape:create-shape"
                  (JObj [("type", JStr "Rectangle");
                         ("shapeProps",
                          JObj [("name", opt JStr name);
                                ("left", JNum left);
                                ("top", JNum top);
                                ("width", JNum width);
                                ("height", JNum height);
                                ("fillColor", opt JStr fillColor);
                                ("strokeColor", opt JStr strokeColor);
                                ("corners", opt JNums corners)]);
                         ("parentId", opt JStr parentId)]) ;;
     data <- executeCommand "shape:get-shape" (JObj [("shapeId", shapeId)]) ;;
     shape <- lift (filterShape data) ;;
     ret (textResult
            ("Created rectangle: " ++ str_of (JSON_stringify shape))))
    (fun error =>
       console_error error ;;;
       ret (textResult
              ("Failed to create rectangle: " ++ error_toString error))).

Definition create_ellipse (name parentId : option string)
  (left top width height : float) (fillColor strokeColor : option string)
  : Bridge value :=
  try_catch
    (shapeId <- executeCommand "shape:create-shape"
                  (JObj [("type", JStr "Ellipse");
                         ("shapeProps",
                          JObj [("name", opt JStr name);
                                ("left", JNum left);
                                ("top", JNum top);
                                ("width", JNum width);
                                ("height", JNum height);
                                ("fillColor", opt JStr fillColor);
                                ("strokeColor", opt JStr strokeColor)]);
                         ("parentId", opt JStr parentId)]) ;;
     data <- executeCommand "shape:get-shape" (JObj [("shapeId", shapeId)]) ;;
     shape <- lift (filterShape data) ;;
     ret (textResult ("Created ellipse: " ++ str_of (JSON_stringify shape))))
    (fun error =>
       console_error error ;;;
       ret (textResult
              ("Failed to create ellipse: " ++ error_toString error))).

Definition create_text (name parentId : option string) (left top : float)
  (text : string) (fontColor : option string) (fontSize : option float)
  : Bridge value :=
  try_catch
    (shapeId <- executeCommand "shape:create-shape"
                  (JObj [("type", JStr "Text");
                         ("shapeProps",
                          JObj [("name", opt JStr name);
                                ("left", JNum left);
                                ("top", JNum top);
                                ("text", JStr text);
                                ("fontColor", opt JStr fontColor);
                                ("fontSize", opt JNum fontSize)]);
                         ("parentId", opt JStr parentId)]) ;;
     data <- executeCommand "shape:get-shape" (JObj [("shapeId", shapeId)]) ;;
     shape <- lift (filterShape data) ;;
     ret (textResult ("Created text: " ++ str_of (JSON_stringify shape))))
    (fun error =>
       console_error error ;;;
       ret (textResult ("Failed to create text: " ++ error_toString error))).

Definition create_line (name parentId : option string)
  (points : list (float * float)) (fillColor strokeColor : option string)
  : Bridge value :=
  try_catch
    (shapeId <- executeCommand "shape:create-shape"
                  (JObj [("type", JStr "Line");
                         ("shapeProps",
                          JObj [("name", opt JStr name);
                                ("path", points_value points);
                                ("fillColor", opt JStr fillColor);
                                ("strokeColor", opt JStr strokeColor)]);
                         ("parentId", opt JStr parentId)]) ;;
     data <- executeCommand "shape:get-shape" (JObj [("shapeId", shapeId)]) ;;
     shape <- lift (filterShape data) ;;
     ret (textResult ("Created line: " ++ str_of (JSON_stringify shape))))
    (fun error =>
       console_error error ;;;
       ret (textResult ("Failed to create line: " ++ error_toString error))).

Definition create_icon (name : string) (parentId : option string)
  (left top width height : float) (strokeColor : option string)
  : Bridge value :=
  try_catch
    (shapeId <- executeCommand "shape:create-icon"
                  (JObj [("iconName", JStr name);
                         ("shapeProps",
                          JObj [("left", JNum left);
                                ("top", JNum top);
                                ("width", JNum width);
                                ("height", JNum height);
                                ("strokeColor", opt JStr strokeColor)]);
                         ("parentId", opt JStr parentId)]) ;;
     data <- executeCommand "shape:get-shape" (JObj [("shapeId", shapeId)]) ;;
     shape <- lift (filterShape data) ;;
     ret (textResult ("Created icon: " ++ str_of (JSON_stringify shape))))
    (fun error =>
       console_error error ;;;
       ret (textResult ("Failed to create icon: " ++ error_toString error))).

(** others holds the arguments of shapeSchema that the caller gave; the
    handler sends a copy of it as shapeProps. *)
Definition update_shape (shapeId : string) (others : list (string * value))
  : Bridge value :=
  try_catch
    (updatedId <- executeCommand "shape:update-shape"
                    (JObj [("shapeId", JStr shapeId);
                           ("shapeProps", JObj (spread (JObj others)))]) ;;
     data <- executeCommand "shape:get-shape"
               (JObj [("shapeId", updatedId)]) ;;
     shape <- lift (filterShape data) ;;
     ret (textResult ("Updated shape: " ++ str_of (JSON_stringify shape))))
    (fun error =>
       console_error error ;;;
       ret (textResult ("Failed to update shape: " ++ error_toString error))).

Definition delete_shape (shapeId : string) : Bridge value :=
  try_catch
    (executeCommand "shape:update-shape"
       (JObj [("shapeIdArray", JArr [JStr shapeId])]) ;;;
     ret (textResult ("Deleted shape of id: " ++ shapeId)))
    (fun error =>
       console_error error ;;;
       ret (textResult ("Failed to delete shape: " ++ error_toString error))).

Definition get_available_icons : Bridge value :=
  try_catch
    (data <- executeCommand "shape:get-available-icons" (JObj []) ;;
     ret (textResult ("Available icons: " ++ str_of (JSON_stringify data))))
    (fun error =>
       console_error error ;;;
       ret (textResult
              ("Failed to get available icons: " ++ error_toString error))).

Definition move_shape (shapeId : string) (dx dy : float) : Bridge value :=
  try_catch
    (executeCommand "shape:move"
       (JObj [("shapeId", JStr shapeId); ("dx", JNum dx); ("dy", JNum dy)]) ;;;
     ret (textResult
            ("Moved shape (id: " ++ shapeId ++ ") as (" ++ number_toString dx
               ++ ", " ++ number_toString dy ++ ")")))
    (fun error =>
       console_error error ;;;
       ret (textResult
              ("Failed to get available icons: " ++ error_toString error))).

Inductive tool_call : Type :=
| CreateFrame (frameType : frame_type) (left top width height : float)
    (fillColor : option string)
| CreateRectangle (name parentId : option string) (left top width height : float)
    (fillColor strokeColor : option string) (corners : option (list float))
| CreateEllipse (name parentId : option string) (left top width height : float)
    (fillColor strokeColor : option string)
| CreateText (name parentId : option string) (left top : float) (text : string)
    (fontColor : option string) (fontSize : option float)
| CreateLine (name parentId : option string) (points : list (float * float))
    (fillColor strokeColor : option string)
| CreateIcon (name : string) (parentId : option string)
    (left top width height : float) (strokeColor : option string)
| UpdateShape (shapeId : string) (others : list (string * value))
| DeleteShape (shapeId : string)
| GetAvailableIcons
| MoveShape (shapeId : string) (dx dy : float).

Definition handler (c : tool_call) : Bridge value :=
  match c with
  | CreateFrame frameType x y w h fillColor =>
      create_frame frameType x y w h fillColor
  | CreateRectangle name parentId x y w h fillColor strokeColor corners =>
      create_rectangle name parentId x y w h fillColor strokeColor corners
  | CreateEllipse name parentId x y w h fillColor strokeColor =>
      create_ellipse name parentId x y w h fillColor strokeColor
  | CreateText name parentId x y text fontColor fontSize =>
      create_text name parentId x y text fontColor fontSize
  | CreateLine name parentId points fillColor strokeColor =>
      create_line name parentId points fillColor strokeColor
  | CreateIcon name parentId x y w h strokeColor =>
      create_icon name parentId x y w h strokeColor
  | UpdateShape shapeId others => update_shape shapeId others
  | DeleteShape shapeId => delete_shape shapeId
  | GetAvailableIcons => get_available_icons
  | MoveShape shapeId dx dy => move_shape shapeId dx dy
  end.

End Handlers.

End IndexV2.

(* ===================================================================== *)
(** ** Scenarios: concrete environments and inputs *)
(* ===================================================================== *)

Module Scenario.

Import Part000.

(** The message requestToFrame0 hands to fetch for a command. *)
Definition posted (slug : string) (params : value) : Request :=
  mkRequest (URL ++ slug) "POST" [("Content-Type", "application/json")]
    (JSON_stringify match params with JUndefined => JObj [] | _ => params end).

(** Whether the transport ever answers a call of requestToFrame0: the promise
    of fetch settles and, for an ok response, so does the read of its body. *)
Definition answered (reply : outcome Response) : bool :=
  match reply with
  | Pending => false
  | Rejected _ => true
  | Fulfilled res => if ok res then settled (json res) else true
  end.

(** An application that never replies. *)
Definition never_answers : transport Request Response := fun _ _ => Pending.

(** An application that gives the same reply to every request. *)
Definition answers (res : Response) : transport Request Response :=
  fun _ _ => Fulfilled res.

(** The headers of an ok response arrive, its body never ends. *)
Definition body_never_ends : Response := mkResponse true Pending.

(** A failure reported by the application, with its own message. *)
Definition not_found : Response :=
  mkResponse false (Fulfilled (JObj [("message", JStr "not found")])).

Definition unauthorized : Response :=
  mkResponse false (Fulfilled (JObj [("message", JStr "unauthorized")])).

Definition rectangle_params : value :=
  JObj [("type", JStr "Rectangle"); ("left", JNum 0); ("top", JNum 0);
        ("width", JNum 100); ("height", JNum 50)].

Definition created : Response :=
  mkResponse true (Fulfilled (JObj [("id", JStr "shp_1")])).

(** A shape as the application returns it, internal field included. *)
Definition raw_shape : value :=
  JObj [("id", JStr "shp_1"); ("internal", JBool true)].

(** A frame as shape:get-shape may return it, with a top and a height of
    its own. *)
Definition frame_shape : value :=
  JObj [("id", JStr "shp_1"); ("top", JNum 0); ("height", JNum 600);
        ("width", JNum 800)].


Definition two_pages_doc : value :=
  JObj [("name", JStr "Untitled");
        ("children", JArr [JObj [("id", JStr "p1"); ("internal", JBool true)];
                           JObj [("id", JStr "p2")]])].

(** A filter that keeps the id of a shape only. *)
Definition keep_id (v : value) : error + value :=
  match v with
  | JObj props =>
      inr (JObj match obj_get "id" props with
                | Some i => [("id", i)]
                | None => []
                end)
  | _ => inr v
  end.

(** The text a Part000 handler reports, if any. *)
Definition reported_text (result : outcome value) : option string :=
  match result with
  | Fulfilled (JObj [("content", JArr [JObj [("type", JStr "text");
                                             ("text", JStr s)]])]) => Some s
  | _ => None
  end.

(** A bridge on which every command succeeds with the same payload. *)
Definition succeeds (payload : value) : transport Command value :=
  fun _ _ => Fulfilled payload.

(** A bridge that never replies. *)
Definition never_replies : transport Command value := fun _ _ => Pending.

(** A bridge on which every command fails with the same error. *)
Definition fails (e : error) : transport Command value :=
  fun _ _ => Rejected e.

(** A bridge that answers the first [n] commands with the payload and lets
    the next one fail. *)
Definition fails_after (n : nat) (payload : value) (e : error)
  : transport Command value :=
  fun history _ =>
    if Nat.ltb (length history) n then Fulfilled payload else Rejected e.

Definition connection_lost : error := Error "connection lost".

Definition no_filter (v : value) : error + value := inr v.

Definition plain_color (c : option string) : value := opt JStr c.

(** A textResult that wraps the text the way the Part000 handlers do. *)
Definition text_result (s : string) : value :=
  JObj [("content", JArr [JObj [("type", JStr "text"); ("text", JStr s)]])].

End Scenario.

(* ===================================================================== *)
(** ** Observing a run of a handler *)
(* ===================================================================== *)

Module Observe.

(** The reply to the last command of a run that sent [cmds] from world [w]. *)
Definition last_reply (t : transport Command value) (w : world Command)
  (cmds : list Command) : outcome value :=
  t (sent w ++ removelast cmds)%list (last cmds ("", JUndefined)).

(** The text of a failure report: every catch clause of the two catalogues
    builds it from a fixed label and the caught error. *)
Definition failure_text (label : string) (e : error) : string :=
  "Failed to " ++ label ++ ": " ++ error_toString e.

(** What a run of a handler with [k] call sites of executeCommand and the
    given failure label looks like from outside: it sends between one and
    [k] commands, and ends as the reply to the last of them tells. *)
Definition reports (textResult : string -> value) (label : string) (k : nat)
  (t : transport Command value) (w : world Command)
  (run : world Command * outcome value) : Prop :=
  let cmds := new_sent w (fst run) in
  sent (fst run) = (sent w ++ cmds)%list /\
  (1 <= length cmds <= k)%nat /\
  match last_reply t w cmds with
  | Pending => snd run = Pending /\ console (fst run) = console w
  | Rejected e =>
      snd run = Fulfilled (textResult (failure_text label e)) /\
      console (fst run) = (console w ++ [e])%list
  | Fulfilled _ =>
      length cmds = k /\
      ((exists s, snd run = Fulfilled (textResult s) /\
                  console (fst run) = console w)
       \/ (exists e, snd run = Fulfilled (textResult (failure_text label e)) /\
                     console (fst run) = (console w ++ [e])%list))
  end.

(** The number of call sites of executeCommand in each handler of the first
    catalogue, and the label of its catch clause. *)
Definition command_count_v1 (c : IndexV1.tool_call) : nat :=
  match c with
  | IndexV1.CreateFrame _ _ _ _ _ => 3
  | IndexV1.CreateRectangle _ _ _ _ _ _ _ _ _
  | IndexV1.CreateEllipse _ _ _ _ _ _ _ _
  | IndexV1.CreateText _ _ _ _ _ _ _ _ _
  | IndexV1.CreateLine _ _ _ _ _
  | IndexV1.CreateIcon _ _ _ _ _ _
  | IndexV1.UpdateShape _ _ _ _ _ _ _ _ _ => 2
  | _ => 1
  end.

Definition failure_label_v1 (c : IndexV1.tool_call) : string :=
  match c with
  | IndexV1.CreateFrame _ _ _ _ _ => "create frame"
  | IndexV1.CreateRectangle _ _ _ _ _ _ _ _ _ => "create rectangle"
  | IndexV1.CreateEllipse _ _ _ _ _ _ _ _ => "create ellipse"
  | IndexV1.CreateText _ _ _ _ _ _ _ _ _ => "create text"
  | IndexV1.CreateLine _ _ _ _ _ => "create line"
  | IndexV1.CreateIcon _ _ _ _ _ _ => "create icon"
  | IndexV1.UpdateShape _ _ _ _ _ _ _ _ _ => "update shape"
  | IndexV1.DeleteShape _ => "delete shape"
  | IndexV1.GetAvailableIcons => "get available icons"
  | IndexV1.MoveShape _ _ _ => "get available icons"
  | IndexV1.AddPage _ => "add new page"
  | IndexV1.GetCurrentPageId => "get current page"
  | IndexV1.SetCurrentPageById _ => "set current page"
  | IndexV1.GetPage _ _ => "get page data"
  | IndexV1.GetAllPages _ => "get page data"
  end.

(** The same two tables for the second catalogue. *)
Definition command_count_v2 (c : IndexV2.tool_call) : nat :=
  match c with
  | IndexV2.CreateFrame _ _ _ _ _ _ => 3
  | IndexV2.CreateRectangle _ _ _ _ _ _ _ _ _
  | IndexV2.CreateEllipse _ _ _ _ _ _ _ _
  | IndexV2.CreateText _ _ _ _ _ _ _
  | IndexV2.CreateLine _ _ _ _ _
  | IndexV2.CreateIcon _ _ _ _ _ _ _
  | IndexV2.UpdateShape _ _ => 2
  | _ => 1
  end.

Definition failure_label_v2 (c : IndexV2.tool_call) : string :=
  match c with
  | IndexV2.CreateFrame _ _ _ _ _ _ => "create frame"
  | IndexV2.CreateRectangle _ _ _ _ _ _ _ _ _ => "create rectangle"
  | IndexV2.CreateEllipse _ _ _ _ _ _ _ _ => "create ellipse"
  | IndexV2.CreateText _ _ _ _ _ _ _ => "create text"
  | IndexV2.CreateLine _ _ _ _ _ => "create line"
  | IndexV2.CreateIcon _ _ _ _ _ _ _ => "create icon"
  | IndexV2.UpdateShape _ _ => "update shape"
  | IndexV2.DeleteShape _ => "delete shape"
  | IndexV2.GetAvailableIcons => "get available icons"
  | IndexV2.MoveShape _ _ _ => "get available icons"
  end.

(** A bridge on which every command is answered with some payload. *)
Definition always_fulfils (t : transport Command value) : Prop :=
  forall history cmd, exists v, t history cmd = Fulfilled v.

End Observe.

Import Observe.

(* ===================================================================== *)
(** ** More ways to look at a run *)
(* ===================================================================== *)

Module Behaviour.

Definition is_undefined (v : value) : bool :=
  match v with
  | JUndefined => true
  | _ => false
  end.

(** The properties of an object literal that were given a value: an optional
    argument the caller left out is an undefined property. *)
Definition given (props : list (string * value)) : list (string * value) :=
  filter (fun kv => negb (is_undefined (snd kv))) props.

(** What JSON.stringify writes for one property of an object. *)
Definition member (kv : string * value) : list string :=
  match JSON_stringify (snd kv) with
  | Some s => [quote (fst kv) ++ ":" ++ s]
  | None => []
  end.

Definition is_fulfilled {A : Type} (o : outcome A) : bool :=
  match o with
  | Fulfilled _ => true
  | _ => false
  end.

(** The replies of the bridge to a sequence of commands sent one after the
    other, starting from a given history. *)
Fixpoint replies_from (t : transport Command value) (history cmds : list Command)
  : list (outcome value) :=
  match cmds with
  | [] => []
  | c :: rest => t history c :: replies_from t (history ++ [c]) rest
  end.

(** The three addresses the fetch based server posts to. *)
Definition slugs : list string :=
  ["/create_shape_from_library"; "/create_shape"; "/update_shape"].

(** The sizes of the icon size table. *)
Definition icon_sizes : list float := [16; 24; 32; 48].

(** A page filter that rejects a page without id. *)
Definition need_id (v : value) : error + value :=
  match v with
  | JObj props =>
      match obj_get "id" props with
      | Some i => inr (JObj [("id", i)])
      | None => inl (Error "page without id")
      end
  | _ => inl (Error "not a page")
  end.

Definition broken_doc : value :=
  JObj [("children", JArr [JObj [("id", JStr "p1")];
                           JObj [("name", JStr "no id")];
                           JNull])].

End Behaviour.

Import Behaviour.

(* ===================================================================== *)
(** ** Facts about the model *)
(* ===================================================================== *)

Section MonadFacts.

Context {Req Resp : Type}.

Lemma new_sent_app (w : world Req) (l : list Req) (c : list error) :
  new_sent w (mkWorld (sent w ++ l) c) = l.
Proof.
  unfold new_sent; simpl.
  induction (sent w) as [|x xs IH]; simpl; auto.
Qed.

Lemma new_sent_same (w : world Req) (c : list error) :
  new_sent w (mkWorld (sent w) c) = [].
Proof.
  unfold new_sent; simpl. apply skipn_all.
Qed.

End MonadFacts.

(* ===================================================================== *)
(** ** The core operation of the fetch based server *)
(* ===================================================================== *)

Section RequestToFrame0.

Import Part000 Scenario.

Variable t : transport Request Response.
Variable slug : string.
Variable params : value.
Variable w : world Request.

(** The run of requestToFrame0, step by step: one message is recorded and
    the outcome follows the reply. *)
Lemma requestToFrame0_run :
  requestToFrame0 slug params t w =
  (mkWorld (sent w ++ [posted slug params]) (console w),
   match t (sent w) (posted slug params) with
   | Fulfilled res =>
       if ok res then json res else Rejected (Error "Failed to create rectangle")
   | Rejected e => Rejected e
   | Pending => Pending
   end).
Proof.
  unfold requestToFrame0, fetch, bind, send, posted.
  destruct (t (sent w) _) as [res|e|]; try reflexivity.
  destruct (ok res); simpl; try reflexivity.
  unfold await, ret. destruct (json res); reflexivity.
Qed.

End RequestToFrame0.

Import Scenario.

(** C1, as stated, fails: an ok response whose body never ends leaves the
    call of requestToFrame0 unsettled for ever. *)
Lemma requestToFrame0_may_never_settle :
  settled (snd (Part000.requestToFrame0 "/create_shape" rectangle_params
                  (answers body_never_ends) empty_world)) = false.
Proof. reflexivity. Qed.

(** C1, amended: a call of requestToFrame0 settles exactly when the transport
    answers.  When it answers, the call is fulfilled with the decoded body of
    an ok response, or rejected; as long as it does not, the call stays
    pending.  The outcome is a single final state, so the call never settles
    twice. *)
Theorem requestToFrame0_settles_with_transport :
  forall (t : transport Part000.Request Part000.Response) slug params w,
    let reply := t (sent w) (posted slug params) in
    let o := snd (Part000.requestToFrame0 slug params t w) in
    (answered reply = true ->
       (exists res d, reply = Fulfilled res /\ Part000.ok res = true /\
                      Part000.json res = Fulfilled d /\ o = Fulfilled d)
       \/ (exists e, o = Rejected e))
    /\ (answered reply = false -> o = Pending)
    /\ settled o = answered reply.
Proof.
  intros t slug params w reply o.
  subst o. rewrite requestToFrame0_run. fold reply. simpl.
  destruct reply as [res|e|]; simpl.
  - destruct (Part000.ok res) eqn:Hok.
    + destruct (Part000.json res) as [d|e|] eqn:Hjson; simpl;
        repeat split; try discriminate; intros _.
      * left. exists res, d. auto.
      * right. eauto.
    + repeat split; try discriminate. intros _. right. eauto.
  - repeat split; try discriminate. intros _. right. eauto.
  - repeat split; discriminate.
Qed.

Lemma requestToFrame0_settles_with_transport_witness :
  answered (answers created [] (posted "/create_shape" rectangle_params)) = true
  /\ snd (Part000.requestToFrame0 "/create_shape" rectangle_params
            (answers created) empty_world)
     = Fulfilled (JObj [("id", JStr "shp_1")]).
Proof.
  split; [reflexivity|].
  destruct (requestToFrame0_settles_with_transport (answers created)
              "/create_shape" rectangle_params empty_world) as [H _].
  destruct (H eq_refl) as [(res & d & _ & _ & _ & Hd)|[e He]].
  - rewrite Hd. simpl in Hd. congruence.
  - discriminate He.
Defined.

(** C2, as stated, fails: when the application never replies the call is
    still pending, it has not settled with a failure of any kind. *)
Lemma requestToFrame0_waits_for_ever :
  snd (Part000.requestToFrame0 "/create_shape" rectangle_params
         never_answers empty_world) = Pending.
Proof. reflexivity. Qed.

(** C2, amended: requestToFrame0 arranges no deadline.  While no response
    arrives the call stays pending, having sent its one message; and every
    failure it raises is the rejection of fetch, the rejection of the body
    read, or the error raised for a response that is not ok. *)
Theorem requestToFrame0_has_no_deadline :
  forall (t : transport Part000.Request Part000.Response) slug params w,
    let reply := t (sent w) (posted slug params) in
    let run := Part000.requestToFrame0 slug params t w in
    (reply = Pending ->
       snd run = Pending /\ new_sent w (fst run) = [posted slug params])
    /\ (forall e, snd run = Rejected e ->
          reply = Rejected e
          \/ exists res, reply = Fulfilled res /\
               (Part000.ok res = false \/ Part000.json res = Rejected e)).
Proof.
  intros t slug params w reply run.
  subst run. rewrite requestToFrame0_run. fold reply. simpl.
  split.
  - intros ->. split; [reflexivity | apply new_sent_app].
  - intros e. destruct reply as [res|e'|]; try discriminate.
    + destruct (Part000.ok res) eqn:Hok; intros H; right; exists res; auto.
    + intros H; left; congruence.
Qed.

Lemma requestToFrame0_has_no_deadline_witness :
  never_answers [] (posted "/update_shape" (JObj [("id", JStr "shp_1")]))
  = Pending
  /\ snd (Part000.requestToFrame0 "/update_shape"
            (JObj [("id", JStr "shp_1")]) never_answers empty_world) = Pending.
Proof.
  split; [reflexivity|].
  apply (requestToFrame0_has_no_deadline never_answers "/update_shape"
           (JObj [("id", JStr "shp_1")]) empty_world).
  reflexivity.
Defined.

(** C3, as stated, fails: the application answers not ok with the message
    not found, and the failure raised carries a fixed text in which that
    message does not occur. *)
Lemma requestToFrame0_drops_application_message :
  snd (Part000.requestToFrame0 "/update_shape"
         (JObj [("id", JStr "missing")]) (answers not_found) empty_world)
  = Rejected (Error "Failed to create rectangle")
  /\ String.index 0 "not found"
       (error_toString (Error "Failed to create rectangle")) = None.
Proof. split; reflexivity. Qed.

(** C3, amended: on a response that is not ok, requestToFrame0 raises a
    failure without reading the payload of the response: whatever the
    application attached, the failure is the same, so it does not carry the
    message of the application. *)
Theorem requestToFrame0_failure_ignores_payload :
  forall (t1 t2 : transport Part000.Request Part000.Response) slug params w
         res1 res2,
    t1 (sent w) (posted slug params) = Fulfilled res1 ->
    Part000.ok res1 = false ->
    t2 (sent w) (posted slug params) = Fulfilled res2 ->
    Part000.ok res2 = false ->
    exists e,
      snd (Part000.requestToFrame0 slug params t1 w) = Rejected e /\
      snd (Part000.requestToFrame0 slug params t2 w) = Rejected e.
Proof.
  intros t1 t2 slug params w res1 res2 H1 Hok1 H2 Hok2.
  rewrite !requestToFrame0_run. simpl.
  rewrite H1, H2, Hok1, Hok2. eauto.
Qed.

Lemma requestToFrame0_failure_ignores_payload_witness :
  exists e,
    snd (Part000.requestToFrame0 "/update_shape" (JObj [("id", JStr "missing")])
           (answers not_found) empty_world) = Rejected e /\
    snd (Part000.requestToFrame0 "/update_shape" (JObj [("id", JStr "missing")])
           (answers unauthorized) empty_world) = Rejected e.
Proof.
  apply (requestToFrame0_failure_ignores_payload
           (answers not_found) (answers unauthorized) "/update_shape"
           (JObj [("id", JStr "missing")]) empty_world not_found unauthorized);
    reflexivity.
Defined.

(** The JSON text of an object, property by property. *)
Lemma stringify_object props :
  JSON_stringify (JObj props)
  = Some ("{" ++ join "," (flat_map member props) ++ "}").
Proof. reflexivity. Qed.

(** C4, as stated, fails: the one message posted for a create_shape command
    is the encoding of the params alone; for no correlation id is it the
    encoding of an object made of id, commandName and params. *)
Lemma requestToFrame0_message_has_no_id :
  new_sent empty_world
    (fst (Part000.requestToFrame0 "/create_shape" rectangle_params
            (answers created) empty_world))
  = [posted "/create_shape" rectangle_params]
  /\ Part000.body (posted "/create_shape" rectangle_params)
     = JSON_stringify rectangle_params
  /\ ~ (exists id,
          Part000.body (posted "/create_shape" rectangle_params)
          = JSON_stringify (JObj [("id", id);
                                  ("commandName", JStr "/create_shape");
                                  ("params", rectangle_params)])).
Proof.
  split; [reflexivity|]. split; [reflexivity|].
  intros [id H]. rewrite (stringify_object (("id", id) :: _)) in H.
  cbn [flat_map] in H. unfold member at 1 in H. cbn [fst snd] in H.
  destruct (JSON_stringify id); vm_compute in H; discriminate H.
Qed.

(** C4, amended: every call of requestToFrame0 hands exactly one message to
    the transport, whatever the reply, and never sends again: a POST to the
    address made of the base URL and the command slug, whose body is the JSON
    encoding of the params (of the empty object when params is undefined).
    The message carries no correlation id. *)
Theorem requestToFrame0_sends_one_message :
  forall (t : transport Part000.Request Part000.Response) slug params w,
    let w' := fst (Part000.requestToFrame0 slug params t w) in
    sent w' = (sent w ++ [posted slug params])%list
    /\ new_sent w w' = [posted slug params]
    /\ Part000.url (posted slug params) = (Part000.URL ++ slug)%string
    /\ Part000.method (posted slug params) = "POST"
    /\ Part000.body (posted slug params)
       = JSON_stringify match params with JUndefined => JObj [] | _ => params end.
Proof.
  intros t slug params w w'. subst w'.
  rewrite requestToFrame0_run. simpl.
  repeat split. apply new_sent_app.
Qed.

(* ===================================================================== *)
(** ** The tool handlers of the two index.ts catalogues *)
(* ===================================================================== *)

Section MapFacts.

Context {Req Resp : Type}.

(** Mapping a callback that only returns or throws touches neither the
    transport nor the console. *)
Lemma mapM_lift (f : value -> error + value) (xs : list value)
      (t : transport Req Resp) (w : world Req) :
  mapM (fun x => lift (f x)) xs t w = lift (map_sum f xs) t w.
Proof.
  induction xs as [|x rest IH]; simpl; [reflexivity|].
  unfold bind at 1. destruct (f x) as [e|y]; simpl; [reflexivity|].
  unfold bind at 1. rewrite IH.
  destruct (map_sum f rest) as [e|ys]; reflexivity.
Qed.

End MapFacts.

(** Symbolic execution of a handler: unfold the monad, then follow every
    reply of the bridge and every result of a helper. *)
Ltac unfold_run :=
  cbv beta iota delta
    [IndexV1.handler IndexV1.create_frame IndexV1.create_rectangle
     IndexV1.create_ellipse IndexV1.create_text IndexV1.create_line
     IndexV1.create_icon IndexV1.update_shape IndexV1.delete_shape
     IndexV1.get_available_icons IndexV1.move_shape IndexV1.add_page
     IndexV1.get_current_page_id IndexV1.set_current_page_by_id
     IndexV1.get_page IndexV1.get_all_pages
     IndexV2.handler IndexV2.create_frame IndexV2.create_rectangle
     IndexV2.create_ellipse IndexV2.create_text IndexV2.create_line
     IndexV2.create_icon IndexV2.update_shape IndexV2.delete_shape
     IndexV2.get_available_icons IndexV2.move_shape
     executeCommand bind try_catch send ret throw console_error lift];
  cbn [sent console].

Ltac reply_cases :=
  repeat (match goal with
  | |- context [match ?t ?h ?c with
                | Fulfilled _ => _ | Rejected _ => _ | Pending => _ end] =>
      let H := fresh "Hreply" in destruct (t h c) eqn:H
  | |- context [match ?f ?d with inl _ => _ | inr _ => _ end] =>
      let H := fresh "Hhelper" in destruct (f d) eqn:H
  end; cbn [sent console]).

Ltac pages_cases fp :=
  repeat (match goal with
  | |- context [if negb (isArray ?v) then _ else _] =>
      let H := fresh "Harray" in destruct (isArray v) eqn:H; cbn [negb]
  | |- context [mapM ?f ?l ?t ?w] =>
      let H := fresh in
      pose proof (mapM_lift fp l t w) as H;
      cbv [lift throw ret] in H; rewrite H; clear H
  | |- context [match map_sum ?f ?l with inl _ => _ | inr _ => _ end] =>
      let H := fresh "Hpages" in destruct (map_sum f l) eqn:H
  end; cbn [sent console]).

(** Bring the commands sent and the replies followed to one normal form. *)
Ltac normalize_run :=
  unfold reports, last_reply, failure_text, Command in *;
  cbn [fst snd sent console] in *;
  rewrite <- ?app_assoc in *; cbn [app] in *;
  rewrite ?new_sent_app in *; cbn [removelast last length app] in *;
  rewrite ?app_nil_r in *.

Ltac close_report :=
  normalize_run;
  repeat match goal with H : _ = _ |- _ => rewrite H end;
  repeat split; try lia;
  solve [ left; eexists; split; reflexivity
        | right; eexists; split; reflexivity ].

(** Every handler of the first catalogue runs as [reports] describes. *)
Lemma handler_reports_v1 fs fp cc tr c t w :
  reports tr (failure_label_v1 c) (command_count_v1 c) t w
    (IndexV1.handler fs fp cc tr c t w).
Proof.
  destruct c; unfold failure_label_v1, command_count_v1.
  all: unfold_run; reply_cases; pages_cases fp; reply_cases.
  all: close_report.
Qed.

(** And so does every handler of the second catalogue. *)
Lemma handler_reports_v2 fs tr c t w :
  reports tr (failure_label_v2 c) (command_count_v2 c) t w
    (IndexV2.handler fs tr c t w).
Proof.
  destruct c; unfold failure_label_v2, command_count_v2.
  all: unfold_run; reply_cases.
  all: close_report.
Qed.

(** What [reports] gives for the two claims on the catalogue. *)
Lemma reports_counts tr label k t w run :
  reports tr label k t w run ->
  (1 <= length (new_sent w (fst run)) <= k)%nat
  /\ (always_fulfils t -> length (new_sent w (fst run)) = k)
  /\ (snd run = Pending \/ exists s, snd run = Fulfilled (tr s)).
Proof.
  unfold reports. intros (Hsent & Hlen & Hlast).
  split; [exact Hlen|]. split.
  - intros Hall. unfold last_reply in Hlast.
    destruct (Hall (sent w ++ removelast (new_sent w (fst run)))%list
                (last (new_sent w (fst run)) ("", JUndefined))) as [v Hv].
    rewrite Hv in Hlast. tauto.
  - destruct (last_reply t w (new_sent w (fst run))).
    + destruct Hlast as (_ & [(s & Hs & _)|(e & He & _)]); eauto.
    + destruct Hlast as (Hs & _); eauto.
    + tauto.
Qed.

Lemma reports_failures tr label k t w run :
  reports tr label k t w run ->
  (forall e, snd run <> Rejected e)
  /\ (forall e, last_reply t w (new_sent w (fst run)) = Rejected e ->
        snd run = Fulfilled (tr (failure_text label e)) /\
        console (fst run) = (console w ++ [e])%list).
Proof.
  unfold reports. intros (Hsent & Hlen & Hlast). split.
  - intros e He.
    destruct (last_reply t w (new_sent w (fst run))).
    + destruct Hlast as (_ & [(s & Hs & _)|(e' & Hs & _)]); congruence.
    + destruct Hlast as (Hs & _); congruence.
    + destruct Hlast as (Hs & _); congruence.
  - intros e He. rewrite He in Hlast. exact Hlast.
Qed.

(** C5, as stated, fails: one invocation of the create_frame handler of the
    first catalogue calls executeCommand three times when the application
    answers, not once. *)
Lemma create_frame_calls_bridge_three_times :
  map fst (new_sent empty_world
             (fst (IndexV1.handler no_filter no_filter plain_color text_result
                     (IndexV1.CreateFrame IndexV1.browser "Home" 0 0 None)
                     (succeeds (JStr "shp_1")) empty_world)))
  = ["shape:create-shape-from-library-by-query"; "view:fit-to-screen";
     "shape:get-shape"].
Proof. reflexivity. Qed.

(** C5, amended: an invocation of a handler of either catalogue calls
    executeCommand at least once and at most as often as the handler has call
    sites: three for create_frame, two for the other create tools and
    update_shape, one for the rest.  It makes exactly that many calls when
    every call is answered with a payload.  Unless it is left pending, the
    handler returns a text made by textResult, for a success as for a caught
    error. *)
Theorem handler_calls_bridge_one_to_three_times :
  (forall fs fp cc tr c t w,
     let run := IndexV1.handler fs fp cc tr c t w in
     let n := length (new_sent w (fst run)) in
     (1 <= n <= command_count_v1 c)%nat /\ (command_count_v1 c <= 3)%nat
     /\ (always_fulfils t -> n = command_count_v1 c)
     /\ (snd run = Pending \/ exists s, snd run = Fulfilled (tr s)))
  /\ (forall fs tr c t w,
        let run := IndexV2.handler fs tr c t w in
        let n := length (new_sent w (fst run)) in
        (1 <= n <= command_count_v2 c)%nat /\ (command_count_v2 c <= 3)%nat
        /\ (always_fulfils t -> n = command_count_v2 c)
        /\ (snd run = Pending \/ exists s, snd run = Fulfilled (tr s))).
Proof.
  split.
  - intros fs fp cc tr c t w run n.
    destruct (reports_counts _ _ _ _ _ _ (handler_reports_v1 fs fp cc tr c t w))
      as (H1 & H2 & H3).
    repeat split; try apply H1; auto.
    destruct c; simpl; lia.
  - intros fs tr c t w run n.
    destruct (reports_counts _ _ _ _ _ _ (handler_reports_v2 fs tr c t w))
      as (H1 & H2 & H3).
    repeat split; try apply H1; auto.
    destruct c; simpl; lia.
Qed.

Lemma succeeds_always_fulfils (payload : value) :
  always_fulfils (succeeds payload).
Proof. intros h c. exists payload. reflexivity. Qed.

Lemma handler_calls_bridge_one_to_three_times_witness :
  always_fulfils (succeeds (JStr "shp_1"))
  /\ length (new_sent empty_world
               (fst (IndexV1.handler no_filter no_filter plain_color text_result
                       (IndexV1.CreateRectangle "Box" None 0 0 100 50 None None
                          None)
                       (succeeds (JStr "shp_1")) empty_world)))
     = 2%nat.
Proof.
  split; [apply succeeds_always_fulfils|].
  destruct handler_calls_bridge_one_to_three_times as [Hv1 _].
  destruct (Hv1 no_filter no_filter plain_color text_result
              (IndexV1.CreateRectangle "Box" None 0 0 100 50 None None None)
              (succeeds (JStr "shp_1")) empty_world) as (_ & _ & H & _).
  apply H. apply succeeds_always_fulfils.
Defined.

(** C6, as stated, fails: the create_frame handler of the fetch based server
    has no catch, and the failure raised by requestToFrame0 leaves it as a
    rejection. *)
Lemma fetch_handler_lets_failure_out :
  snd (Part000.handler (Part000.CreateFrame Part000.Browser 0 0 800 600)
         (answers not_found) empty_world)
  = Rejected (Error "Failed to create rectangle").
Proof. reflexivity. Qed.

(** C6, amended: no handler of the two index.ts catalogues ever ends in a
    rejection.  When a call of executeCommand fails with an error, whatever
    that error is, the handler writes it with console.error and returns,
    through textResult, a text that starts with Failed to, names the
    operation and ends with the error.  (The handlers of the fetch based
    server have no catch.) *)
Theorem handler_reports_every_failure :
  (forall fs fp cc tr c t w,
     let run := IndexV1.handler fs fp cc tr c t w in
     (forall e, snd run <> Rejected e)
     /\ (forall e, last_reply t w (new_sent w (fst run)) = Rejected e ->
           exists label,
             snd run = Fulfilled
                         (tr ("Failed to " ++ label ++ ": " ++ error_toString e))
             /\ console (fst run) = (console w ++ [e])%list))
  /\ (forall fs tr c t w,
        let run := IndexV2.handler fs tr c t w in
        (forall e, snd run <> Rejected e)
        /\ (forall e, last_reply t w (new_sent w (fst run)) = Rejected e ->
              exists label,
                snd run = Fulfilled
                            (tr ("Failed to " ++ label ++ ": " ++ error_toString e))
                /\ console (fst run) = (console w ++ [e])%list)).
Proof.
  split.
  - intros fs fp cc tr c t w run.
    destruct (reports_failures _ _ _ _ _ _ (handler_reports_v1 fs fp cc tr c t w))
      as (H1 & H2).
    split; [exact H1|]. intros e He. exists (failure_label_v1 c).
    exact (H2 e He).
  - intros fs tr c t w run.
    destruct (reports_failures _ _ _ _ _ _ (handler_reports_v2 fs tr c t w))
      as (H1 & H2).
    split; [exact H1|]. intros e He. exists (failure_label_v2 c).
    exact (H2 e He).
Qed.

Lemma handler_reports_every_failure_witness :
  last_reply (fails connection_lost) empty_world
    (new_sent empty_world
       (fst (IndexV1.handler no_filter no_filter plain_color text_result
               (IndexV1.DeleteShape "shp_1") (fails connection_lost)
               empty_world)))
  = Rejected connection_lost
  /\ exists label,
       snd (IndexV1.handler no_filter no_filter plain_color text_result
              (IndexV1.DeleteShape "shp_1") (fails connection_lost) empty_world)
       = Fulfilled (text_result ("Failed to " ++ label ++ ": "
                                   ++ error_toString connection_lost))
       /\ console (fst (IndexV1.handler no_filter no_filter plain_color
                          text_result (IndexV1.DeleteShape "shp_1")
                          (fails connection_lost) empty_world))
          = [connection_lost].
Proof.
  split; [reflexivity|].
  destruct handler_reports_every_failure as [Hv1 _].
  destruct (Hv1 no_filter no_filter plain_color text_result
              (IndexV1.DeleteShape "shp_1") (fails connection_lost) empty_world)
    as (_ & H).
  apply (H connection_lost). reflexivity.
Defined.

(* ===================================================================== *)
(** ** What the handlers report *)
(* ===================================================================== *)

(** The run of get_all_pages once doc:get answered with a payload: the
    pages are read from children, or the attempt throws, and the catch
    clause turns a throw into a report. *)
Lemma get_all_pages_run fp tr exportShapes t w docData :
  t (sent w) ("doc:get", JObj [("exportPages", JBool true);
                               ("exportShapes", JBool exportShapes)])
  = Fulfilled docData ->
  IndexV1.get_all_pages fp tr exportShapes t w =
  let w1 := mkWorld (sent w ++ [("doc:get",
                                 JObj [("exportPages", JBool true);
                                       ("exportShapes", JBool exportShapes)])])
              (console w) in
  match
    match get_prop docData "children" with
    | inl e => inl e
    | inr found =>
        if isArray found then map_sum fp (IndexV1.elements found)
        else match can_assign docData "children" with
             | inl e => inl e
             | inr _ => inr []
             end
    end
  with
  | inr pages =>
      (w1, Fulfilled (tr ("The all pages data: " ++
                          str_of (JSON_stringify (JArr pages)))))
  | inl e =>
      (mkWorld (sent w1) (console w ++ [e]),
       Fulfilled (tr ("Failed to get page data: " ++ error_toString e)))
  end.
Proof.
  intros Hreply.
  unfold IndexV1.get_all_pages, try_catch, executeCommand.
  unfold bind at 1 2. unfold send at 1. unfold Command in *. rewrite Hreply.
  destruct (get_prop docData "children") as [e|found]; [reflexivity|].
  cbn [lift]. unfold ret at 1.
  destruct (isArray found); cbn [negb].
  - unfold bind, ret at 1. rewrite mapM_lift.
    destruct (map_sum fp (IndexV1.elements found)); reflexivity.
  - destruct (can_assign docData "children") as [e|[]]; reflexivity.
Qed.

Lemma get_all_pages_last_reply fp tr exportShapes t w :
  last_reply t w
    (new_sent w (fst (IndexV1.get_all_pages fp tr exportShapes t w)))
  = t (sent w) ("doc:get", JObj [("exportPages", JBool true);
                                 ("exportShapes", JBool exportShapes)]).
Proof.
  destruct (t (sent w) ("doc:get", JObj [("exportPages", JBool true);
                                         ("exportShapes", JBool exportShapes)]))
    as [docData|e|] eqn:Hreply.
  - rewrite (get_all_pages_run fp tr _ _ _ _ Hreply). cbv zeta.
    match goal with
    | |- context [match ?x with inl _ => _ | inr _ => _ end] => destruct x
    end; normalize_run; exact Hreply.
  - unfold_run. unfold Command in *. rewrite Hreply. normalize_run.
    exact Hreply.
  - unfold_run. unfold Command in *. rewrite Hreply. normalize_run.
    exact Hreply.
Qed.

(** Follow a run to its end, given the payload of its last reply. *)
Ltac follow_payload :=
  unfold_run; reply_cases; intros;
  normalize_run;
  repeat match goal with
  | H : ?x = _, H' : ?x = _ |- _ => rewrite H in H'
  end;
  try discriminate;
  repeat match goal with
  | H : Fulfilled _ = Fulfilled _ |- _ => injection H as H; subst
  | H : inr _ = inr _ |- _ => injection H as H; subst
  end;
  try discriminate; try congruence.

(** The text create_frame reports once its three commands were answered
    and the filter returned. *)
Lemma create_frame_report fs cc tr frameType name x y fill
      (t : transport Command value) (w : world Command) data shape :
  let run := IndexV1.create_frame fs cc tr frameType name x y fill t w in
  last_reply t w (new_sent w (fst run)) = Fulfilled data ->
  fs data = inr shape ->
  snd run = Fulfilled
    (tr ("Created frame: " ++
         str_of (JSON_stringify
           (JObj (obj_set "height"
                    (JNum (IndexV1.height (IndexV1.FRAME_SIZE frameType)
                           + IndexV1.FRAME_HEADER_HEIGHT frameType))
                    (obj_set "top"
                       (JNum (y - IndexV1.FRAME_HEADER_HEIGHT frameType))
                       (spread shape))))))).
Proof.
  intros run; subst run. follow_payload.
Qed.

(** C7, as stated, fails: the create_frame handler of the fetch based server
    serializes the payload as it came, internal field included; the text it
    reports is not the encoding of the filtered shape. *)
Lemma fetch_handler_reports_unfiltered_payload :
  reported_text
    (snd (Part000.handler (Part000.CreateFrame Part000.Browser 0 0 800 600)
            (answers (Part000.mkResponse true (Fulfilled raw_shape)))
            empty_world))
  = JSON_stringify raw_shape
  /\ keep_id raw_shape = inr (JObj [("id", JStr "shp_1")])
  /\ JSON_stringify raw_shape <> JSON_stringify (JObj [("id", JStr "shp_1")])
  /\ String.index 0 "internal" (str_of (JSON_stringify raw_shape))
     = Some 15%nat.
Proof.
  split; [reflexivity|]. split; [reflexivity|].
  split; [|reflexivity]. vm_compute. discriminate.
Qed.

(** C7, amended: in the two index.ts catalogues the handlers that report a
    shape or a page serialize the payload only after it went through
    filterShape or filterPage: create_frame, create_rectangle, create_text,
    update_shape, get_page and get_all_pages of the first catalogue, and
    create_frame, create_rectangle, create_text and update_shape of the
    second.  The reported text is built from the value the filter returned
    (from the filtered elements of children for get_all_pages), never from
    the payload itself. *)
Theorem catalogue_reports_filtered_payload :
  (forall fs fp cc tr (t : transport Command value) (w : world Command),
    (forall frameType name x y fill data shape,
        let run := IndexV1.create_frame fs cc tr frameType name x y fill t w in
        last_reply t w (new_sent w (fst run)) = Fulfilled data ->
        fs data = inr shape ->
        snd run = Fulfilled
          (tr ("Created frame: " ++
               str_of (JSON_stringify
                 (JObj (obj_set "height"
                          (JNum (IndexV1.height (IndexV1.FRAME_SIZE frameType)
                                 + IndexV1.FRAME_HEADER_HEIGHT frameType))
                          (obj_set "top"
                             (JNum (y - IndexV1.FRAME_HEADER_HEIGHT frameType))
                             (spread shape))))))))
    /\ (forall name parentId x y wd ht fill stroke corners data shape,
          let run := IndexV1.create_rectangle fs cc tr name parentId x y wd ht
                       fill stroke corners t w in
          last_reply t w (new_sent w (fst run)) = Fulfilled data ->
          fs data = inr shape ->
          snd run = Fulfilled
            (tr ("Created rectangle: " ++ str_of (JSON_stringify shape))))
    /\ (forall type name parentId x y wd text color fontSize data shape,
          let run := IndexV1.create_text fs cc tr type name parentId x y wd
                       text color fontSize t w in
          last_reply t w (new_sent w (fst run)) = Fulfilled data ->
          fs data = inr shape ->
          snd run = Fulfilled
            (tr ("Created text: " ++
                 str_of (JSON_stringify
                   (JObj (obj_set "textType"
                            (opt (fun k => JStr (IndexV1.text_type_string k))
                                 type)
                            (spread shape)))))))
    /\ (forall shapeId name wd ht stroke fill color fontSize corners data shape,
          let run := IndexV1.update_shape fs cc tr shapeId name wd ht stroke
                       fill color fontSize corners t w in
          last_reply t w (new_sent w (fst run)) = Fulfilled data ->
          fs data = inr shape ->
          snd run = Fulfilled
            (tr ("Updated shape: " ++ str_of (JSON_stringify shape))))
    /\ (forall pageId exportShapes data page,
          let run := IndexV1.get_page fp tr pageId exportShapes t w in
          last_reply t w (new_sent w (fst run)) = Fulfilled data ->
          fp data = inr page ->
          snd run = Fulfilled
            (tr ("The page data: " ++ str_of (JSON_stringify page))))
    /\ (forall exportShapes data pages filtered,
          let run := IndexV1.get_all_pages fp tr exportShapes t w in
          last_reply t w (new_sent w (fst run)) = Fulfilled data ->
          get_prop data "children" = inr (JArr pages) ->
          map_sum fp pages = inr filtered ->
          snd run = Fulfilled
            (tr ("The all pages data: " ++
                 str_of (JSON_stringify (JArr filtered))))))
  /\ (forall fs tr (t : transport Command value) (w : world Command),
        (forall frameType x y wd ht fill data shape,
            let run := IndexV2.create_frame fs tr frameType x y wd ht fill t w in
            last_reply t w (new_sent w (fst run)) = Fulfilled data ->
            fs data = inr shape ->
            snd run = Fulfilled
              (tr ("Created frame: " ++ str_of (JSON_stringify shape))))
        /\ (forall name parentId x y wd ht fill stroke corners data shape,
              let run := IndexV2.create_rectangle fs tr name parentId x y wd ht
                           fill stroke corners t w in
              last_reply t w (new_sent w (fst run)) = Fulfilled data ->
              fs data = inr shape ->
              snd run = Fulfilled
                (tr ("Created rectangle: " ++ str_of (JSON_stringify shape))))
        /\ (forall name parentId x y text color fontSize data shape,
              let run := IndexV2.create_text fs tr name parentId x y text
                           color fontSize t w in
              last_reply t w (new_sent w (fst run)) = Fulfilled data ->
              fs data = inr shape ->
              snd run = Fulfilled
                (tr ("Created text: " ++ str_of (JSON_stringify shape))))
        /\ (forall shapeId others data shape,
              let run := IndexV2.update_shape fs tr shapeId others t w in
              last_reply t w (new_sent w (fst run)) = Fulfilled data ->
              fs data = inr shape ->
              snd run = Fulfilled
                (tr ("Updated shape: " ++ str_of (JSON_stringify shape))))).
Proof.
  split.
  - intros fs fp cc tr t w.
    split; [intros *; apply create_frame_report|].
    repeat split; intros *; try subst run; cbv zeta.
    1-4: follow_payload.
    rewrite get_all_pages_last_reply. intros Hreply Hchildren Hpages.
    rewrite (get_all_pages_run fp tr _ _ _ _ Hreply). cbv zeta.
    rewrite Hchildren. cbn [isArray IndexV1.elements]. rewrite Hpages.
    reflexivity.
  - intros fs tr t w.
    repeat split; intros *; try subst run; cbv zeta; follow_payload.
Qed.

Lemma catalogue_reports_filtered_payload_witness :
  last_reply (succeeds raw_shape) empty_world
    (new_sent empty_world
       (fst (IndexV1.create_rectangle keep_id plain_color text_result "Box"
               None 0 0 100 50 None None None (succeeds raw_shape)
               empty_world)))
  = Fulfilled raw_shape
  /\ keep_id raw_shape = inr (JObj [("id", JStr "shp_1")])
  /\ snd (IndexV1.create_rectangle keep_id plain_color text_result "Box" None
            0 0 100 50 None None None (succeeds raw_shape) empty_world)
     = Fulfilled
         (text_result
            ("Created rectangle: " ++
             str_of (JSON_stringify (JObj [("id", JStr "shp_1")]))))
  /\ snd (IndexV2.update_shape keep_id text_result "shp_1"
            [("name", JStr "Header")] (succeeds raw_shape) empty_world)
     = Fulfilled
         (text_result
            ("Updated shape: " ++
             str_of (JSON_stringify (JObj [("id", JStr "shp_1")])))).
Proof.
  split; [reflexivity|]. split; [reflexivity|].
  destruct catalogue_reports_filtered_payload as [Hv1 Hv2].
  split.
  - destruct (Hv1 keep_id keep_id plain_color text_result (succeeds raw_shape)
                empty_world) as (_ & H & _).
    apply (H "Box" None 0 0 100 50 None None None raw_shape); reflexivity.
  - destruct (Hv2 keep_id text_result (succeeds raw_shape) empty_world)
      as (_ & _ & _ & H).
    apply (H "shp_1" [("name", JStr "Header")] raw_shape); reflexivity.
Defined.

(** *** Object updates *)

Lemma obj_get_set_same k v props :
  obj_get k (obj_set k v props) = Some v.
Proof.
  induction props as [|[k' v'] rest IH]; simpl.
  - now rewrite String.eqb_refl.
  - destruct (String.eqb k k') eqn:Hk; simpl.
    + now rewrite String.eqb_refl.
    + now rewrite Hk.
Qed.

Lemma obj_get_set_other k k' v props :
  k <> k' -> obj_get k (obj_set k' v props) = obj_get k props.
Proof.
  intros Hne. apply String.eqb_neq in Hne.
  induction props as [|[k0 v0] rest IH]; simpl.
  - now rewrite Hne.
  - destruct (String.eqb k' k0) eqn:Hk; simpl.
    + apply String.eqb_eq in Hk. subst k0. now rewrite Hne.
    + destruct (String.eqb k k0); auto.
Qed.

(** C8: create_frame of the first catalogue sends the creation command with
    top lowered by the header height of the frame type (0 for phone, tablet,
    watch and tv, 32 for desktop, 76 for browser) and height raised by it
    (676 for browser); minus and plus are those of the numbers of the
    language, as the handler computes them.  The object it reports is the
    filtered shape with top and height set to these two adjusted values, in
    place of whatever shape:get-shape returned for them; its other
    properties are those of the filtered shape. *)
Theorem create_frame_accounts_for_header :
  forall fs cc tr frameType name x y fill (t : transport Command value) w,
    let header := IndexV1.FRAME_HEADER_HEIGHT frameType in
    let tall := IndexV1.height (IndexV1.FRAME_SIZE frameType) + header in
    let run := IndexV1.create_frame fs cc tr frameType name x y fill t w in
    header = match frameType with
             | IndexV1.desktop => 32
             | IndexV1.browser => 76
             | _ => 0
             end
    /\ IndexV1.height (IndexV1.FRAME_SIZE IndexV1.browser)
       + IndexV1.FRAME_HEADER_HEIGHT IndexV1.browser = 676
    /\ hd_error (new_sent w (fst run))
       = Some ("shape:create-shape-from-library-by-query",
               JObj [("query",
                      JStr (IndexV1.FRAME_NAME frameType ++ "&@Frame"));
                     ("shapeProps",
                      JObj [("name", JStr name);
                            ("left", JNum x);
                            ("top", JNum (y - header));
                            ("width",
                             JNum (IndexV1.width (IndexV1.FRAME_SIZE frameType)));
                            ("height", JNum tall);
                            ("fillColor", cc fill)])])
    /\ (forall data shape,
          last_reply t w (new_sent w (fst run)) = Fulfilled data ->
          fs data = inr shape ->
          let props := obj_set "height" (JNum tall)
                         (obj_set "top" (JNum (y - header)) (spread shape)) in
          snd run = Fulfilled
                      (tr ("Created frame: " ++
                           str_of (JSON_stringify (JObj props))))
          /\ obj_get "top" props = Some (JNum (y - header))
          /\ obj_get "height" props = Some (JNum tall)
          /\ (forall k, k <> "top" -> k <> "height" ->
                obj_get k props = obj_get k (spread shape))).
Proof.
  intros fs cc tr frameType name x y fill t w header tall run.
  split; [destruct frameType; reflexivity|]. split; [reflexivity|]. split.
  - subst run tall header. unfold_run; reply_cases; normalize_run; reflexivity.
  - intros data shape Hlast Hshape props.
    split; [|split; [|split]].
    + exact (create_frame_report fs cc tr frameType name x y fill t w
               data shape Hlast Hshape).
    + subst props. rewrite obj_get_set_other by discriminate.
      apply obj_get_set_same.
    + apply obj_get_set_same.
    + intros k Htop Hheight. subst props. now rewrite !obj_get_set_other.
Qed.

Lemma create_frame_accounts_for_header_witness :
  last_reply (succeeds frame_shape) empty_world
    (new_sent empty_world
       (fst (IndexV1.create_frame no_filter plain_color text_result
               IndexV1.browser "Home" 0 100 None (succeeds frame_shape)
               empty_world)))
  = Fulfilled frame_shape
  /\ no_filter frame_shape = inr frame_shape
  /\ obj_get "top" (spread frame_shape) = Some (JNum 0)
  /\ obj_get "height" (spread frame_shape) = Some (JNum 600)
  /\ snd (IndexV1.create_frame no_filter plain_color text_result
            IndexV1.browser "Home" 0 100 None (succeeds frame_shape)
            empty_world)
     = Fulfilled
         (text_result
            ("Created frame: " ++
             str_of (JSON_stringify
                       (JObj [("id", JStr "shp_1"); ("top", JNum 24);
                              ("height", JNum 676); ("width", JNum 800)])))).
Proof.
  split; [reflexivity|]. split; [reflexivity|].
  split; [reflexivity|]. split; [reflexivity|].
  destruct (create_frame_accounts_for_header no_filter plain_color text_result
              IndexV1.browser "Home" 0 100 None (succeeds frame_shape)
              empty_world) as (_ & _ & _ & H).
  destruct (H frame_shape frame_shape eq_refl eq_refl) as (Hrun & _).
  exact Hrun.
Defined.




(** The same handler on a document with pages: each page goes through the
    filter. *)
Example get_all_pages_two_pages :
  snd (IndexV1.get_all_pages keep_id text_result false (succeeds two_pages_doc)
         empty_world)
  = Fulfilled
      (text_result
         ("The all pages data: " ++
          str_of (JSON_stringify (JArr [JObj [("id", JStr "p1")];
                                        JObj [("id", JStr "p2")]])))).
Proof. reflexivity. Qed.

(** C10: delete_shape of the second catalogue sends exactly one command,
    shape:update-shape with the shape id in shapeIdArray, and reports the
    deletion when that command succeeds.  It never sends edit:delete, which
    is the one command delete_shape of the first catalogue sends for the same
    shape id: the two handlers do not emit the same command. *)
Theorem delete_shape_variants_differ :
  forall tr shapeId (t : transport Command value) w,
    let run2 := IndexV2.delete_shape tr shapeId t w in
    let run1 := IndexV1.delete_shape tr shapeId t w in
    new_sent w (fst run2)
    = [("shape:update-shape", JObj [("shapeIdArray", JArr [JStr shapeId])])]
    /\ (forall v,
          t (sent w) ("shape:update-shape",
                      JObj [("shapeIdArray", JArr [JStr shapeId])])
          = Fulfilled v ->
          snd run2 = Fulfilled (tr ("Deleted shape of id: " ++ shapeId)))
    /\ ~ In "edit:delete" (map fst (new_sent w (fst run2)))
    /\ new_sent w (fst run1)
       = [("edit:delete", JObj [("shapeIdArray", JArr [JStr shapeId])])]
    /\ new_sent w (fst run1) <> new_sent w (fst run2).
Proof.
  intros tr shapeId t w run2 run1.
  assert (H2 : new_sent w (fst run2)
               = [("shape:update-shape",
                   JObj [("shapeIdArray", JArr [JStr shapeId])])]).
  { subst run2. unfold_run; reply_cases; normalize_run; reflexivity. }
  assert (H1 : new_sent w (fst run1)
               = [("edit:delete",
                   JObj [("shapeIdArray", JArr [JStr shapeId])])]).
  { subst run1. unfold_run; reply_cases; normalize_run; reflexivity. }
  split; [exact H2|]. split; [|split; [|split]].
  - intros v Hreply. subst run2. unfold_run. unfold Command in *.
    rewrite Hreply. reflexivity.
  - rewrite H2. simpl. intros [H|[]]. discriminate H.
  - exact H1.
  - rewrite H1, H2. discriminate.
Qed.

Lemma delete_shape_variants_differ_witness :
  succeeds JNull []
    ("shape:update-shape", JObj [("shapeIdArray", JArr [JStr "shp_1"])])
  = Fulfilled JNull
  /\ snd (IndexV2.delete_shape text_result "shp_1" (succeeds JNull) empty_world)
     = Fulfilled (text_result ("Deleted shape of id: " ++ "shp_1")).
Proof.
  split; [reflexivity|].
  destruct (delete_shape_variants_differ text_result "shp_1" (succeeds JNull)
              empty_world) as (_ & H & _).
  apply (H JNull). reflexivity.
Defined.

(* ===================================================================== *)
(** ** Further properties: JSON text and objects *)
(* ===================================================================== *)

(** JSON.stringify has no text for the undefined value, and only for it. *)
Lemma stringify_defined v :
  JSON_stringify v = None <-> v = JUndefined.
Proof.
  split.
  - destruct v; simpl; intros H; try discriminate; reflexivity.
  - intros ->. reflexivity.
Qed.

Lemma members_given props :
  flat_map member (given props) = flat_map member props.
Proof.
  induction props as [|[k v] rest IH]; [reflexivity|].
  unfold given in *. cbn [filter flat_map snd].
  destruct v; cbn [is_undefined negb flat_map]; rewrite IH; reflexivity.
Qed.

(** An undefined property leaves no trace in the JSON text of an object. *)
Lemma stringify_omits_undefined props :
  JSON_stringify (JObj (given props)) = JSON_stringify (JObj props).
Proof.
  rewrite !stringify_object, members_given. reflexivity.
Qed.

Lemma obj_set_keys k v props :
  map fst (obj_set k v props)
  = if existsb (String.eqb k) (map fst props) then map fst props
    else (map fst props ++ [k])%list.
Proof.
  induction props as [|[k' v'] rest IH]; simpl; [reflexivity|].
  destruct (String.eqb k k') eqn:E; simpl.
  - apply String.eqb_eq in E. now subst.
  - rewrite IH. destruct (existsb _ _); reflexivity.
Qed.

(** Setting a property never makes a property name occur twice. *)
Lemma obj_set_NoDup k v props :
  NoDup (map fst props) -> NoDup (map fst (obj_set k v props)).
Proof.
  intros H. rewrite obj_set_keys.
  destruct (existsb (String.eqb k) (map fst props)) eqn:E; [exact H|].
  apply NoDup_app; [exact H| repeat constructor; simpl; tauto |].
  intros x Hin [Hx|[]]. subst x.
  assert (existsb (String.eqb k) (map fst props) = true).
  { apply existsb_exists. exists k. split; [exact Hin| apply String.eqb_refl]. }
  congruence.
Qed.

Lemma spread_object_NoDup props : NoDup (map fst (spread (JObj props))).
Proof.
  unfold spread.
  assert (G : forall acc, NoDup (map fst acc) ->
     NoDup (map fst (fold_left (fun a kv => obj_set (fst kv) (snd kv) a)
                       props acc))).
  { induction props as [|kv rest IH]; intros acc Hacc; simpl; [exact Hacc|].
    apply IH. now apply obj_set_NoDup. }
  apply G. constructor.
Qed.

(* ===================================================================== *)
(** ** Further properties: the fetch based server *)
(* ===================================================================== *)

(** X1: every request of requestToFrame0 carries a body: JSON.stringify has
    a text for every params but undefined, and for undefined the default
    parameter puts the empty object, whose text is the pair of braces. *)
Theorem requestToFrame0_always_posts_body :
  forall (t : transport Part000.Request Part000.Response) slug params w,
    exists text,
      map Part000.body
        (new_sent w (fst (Part000.requestToFrame0 slug params t w)))
      = [Some text]
      /\ (params = JUndefined -> text = "{}").
Proof.
  intros t slug params w. rewrite requestToFrame0_run. cbn [fst].
  rewrite new_sent_app. unfold posted. cbn [map Part000.body].
  destruct params; cbn [JSON_stringify]; eexists;
    (split; [reflexivity|]); try discriminate.
  reflexivity.
Qed.

Lemma requestToFrame0_always_posts_body_witness :
  exists text,
    map Part000.body
      (new_sent empty_world
         (fst (Part000.requestToFrame0 "/create_shape" JUndefined
                 never_answers empty_world)))
    = [Some text] /\ text = "{}".
Proof.
  destruct (requestToFrame0_always_posts_body never_answers "/create_shape"
              JUndefined empty_world) as (text & Hbody & Hdefault).
  exists text. split; [exact Hbody | apply Hdefault; reflexivity].
Defined.

(** X2: an optional argument that the caller left out, which reaches the
    params object as an undefined property, is not transmitted: the call
    runs exactly as with the params object without these properties. *)
Theorem requestToFrame0_omits_undefined_params :
  forall (t : transport Part000.Request Part000.Response) slug props w,
    Part000.requestToFrame0 slug (JObj props) t w
    = Part000.requestToFrame0 slug (JObj (given props)) t w.
Proof.
  intros t slug props w. rewrite !requestToFrame0_run.
  assert (H : posted slug (JObj (given props)) = posted slug (JObj props)).
  { unfold posted. now rewrite stringify_omits_undefined. }
  now rewrite H.
Qed.

(** A request followed by the wrapping of its reply, as every handler of
    the fetch based server is written. *)
Lemma fetch_then_wrap slug params
      (t : transport Part000.Request Part000.Response) w :
  let run := bind (Part000.requestToFrame0 slug params)
               (fun data => ret (Part000.text_content data)) t w in
  console (fst run) = console w
  /\ new_sent w (fst run) = [posted slug params]
  /\ match t (sent w) (posted slug params) with
     | Fulfilled res =>
         if Part000.ok res then
           match Part000.json res with
           | Fulfilled data => snd run = Fulfilled (Part000.text_content data)
           | Rejected e => snd run = Rejected e
           | Pending => snd run = Pending
           end
         else exists e, snd run = Rejected e
     | Rejected e => snd run = Rejected e
     | Pending => snd run = Pending
     end.
Proof.
  intros run. subst run. unfold bind. rewrite requestToFrame0_run.
  destruct (t (sent w) (posted slug params)) as [res|e|].
  - destruct (Part000.ok res).
    + destruct (Part000.json res); cbn [fst snd ret];
        (split; [reflexivity|]); (split; [apply new_sent_app|]); reflexivity.
    + cbn [fst snd]. split; [reflexivity|]. split; [apply new_sent_app|].
      eexists; reflexivity.
  - cbn [fst snd]. split; [reflexivity|]. split; [apply new_sent_app|].
    reflexivity.
  - cbn [fst snd]. split; [reflexivity|]. split; [apply new_sent_app|].
    reflexivity.
Qed.

(** X3: every handler of the fetch based server posts exactly one request,
    to one of its three addresses, and writes nothing to the console.  It is
    fulfilled, with the JSON text of the decoded reply as its text content,
    exactly when the response is ok and its body decodes; it is rejected
    when fetch or the body read is rejected or the response is not ok, and
    stays pending while the application does not answer. *)
Theorem fetch_handler_posts_once :
  forall c (t : transport Part000.Request Part000.Response) w,
    let run := Part000.handler c t w in
    console (fst run) = console w
    /\ exists slug params,
         In slug slugs
         /\ new_sent w (fst run) = [posted slug params]
         /\ match t (sent w) (posted slug params) with
            | Fulfilled res =>
                if Part000.ok res then
                  match Part000.json res with
                  | Fulfilled data =>
                      snd run = Fulfilled (Part000.text_content data)
                  | Rejected e => snd run = Rejected e
                  | Pending => snd run = Pending
                  end
                else exists e, snd run = Rejected e
            | Rejected e => snd run = Rejected e
            | Pending => snd run = Pending
            end.
Proof.
  intros c t w run. subst run.
  destruct c; cbn [Part000.handler];
    unfold Part000.create_frame, Part000.create_text,
      Part000.create_rectangle, Part000.update_shape;
    match goal with
    | |- context [bind (Part000.requestToFrame0 ?slug ?params) _ t w] =>
        destruct (fetch_then_wrap slug params t w) as (Hconsole & Hsent & Hend);
        split; [exact Hconsole|];
        exists slug, params; split; [unfold slugs; simpl; tauto|];
        split; [exact Hsent | exact Hend]
    end.
Qed.

(* ===================================================================== *)
(** ** Further properties: the two catalogues as a whole *)
(* ===================================================================== *)

(** Every leaf of the symbolic execution of a handler of the first
    catalogue, with the commands sent in normal form. *)
Ltac run_v1 fp :=
  unfold_run; reply_cases; pages_cases fp; reply_cases; normalize_run.

Ltac run_v2 := unfold_run; reply_cases; normalize_run.

Ltac replies_in_order :=
  cbn [replies_from]; unfold Command in *;
  rewrite <- ?app_assoc; cbn [app]; rewrite ?app_nil_r;
  cbn [removelast];
  repeat match goal with H : _ = _ |- _ => rewrite H end;
  reflexivity.

(** X5: a handler never sends a command after one that failed or was left
    unanswered: in every run, all commands but the last were answered with a
    payload.  In particular no command is ever sent again. *)
Theorem handler_stops_at_first_failure :
  (forall fs fp cc tr c (t : transport Command value) w,
      forallb is_fulfilled
        (removelast
           (replies_from t (sent w)
              (new_sent w (fst (IndexV1.handler fs fp cc tr c t w)))))
      = true)
  /\ (forall fs tr c (t : transport Command value) w,
        forallb is_fulfilled
          (removelast
             (replies_from t (sent w)
                (new_sent w (fst (IndexV2.handler fs tr c t w)))))
        = true).
Proof.
  split.
  - intros fs fp cc tr c t w. destruct c; run_v1 fp; replies_in_order.
  - intros fs tr c t w. destruct c; run_v2; replies_in_order.
Qed.

Ltac find_get_shape :=
  intros cmd Hin Hname; simpl in Hin;
  repeat match goal with
         | H : _ \/ _ |- _ => destruct H as [H|H]
         | H : False |- _ => destruct H
         end;
  subst cmd; simpl in Hname;
  first [ discriminate Hname
        | eexists _, _; split; [reflexivity|]; split;
          [eassumption|reflexivity] ].

(** X6: whenever a handler sends shape:get-shape, the shape it asks for is
    the one whose id the first command of the invocation returned.  For
    update_shape this is the id the update command answered with, not the
    shapeId argument of the caller. *)
Theorem get_shape_asks_for_returned_id :
  (forall fs fp cc tr c (t : transport Command value) w cmd,
      let cmds := new_sent w (fst (IndexV1.handler fs fp cc tr c t w)) in
      In cmd cmds -> fst cmd = "shape:get-shape" ->
      exists first id,
        hd_error cmds = Some first
        /\ t (sent w) first = Fulfilled id
        /\ snd cmd = JObj [("shapeId", id)])
  /\ (forall fs tr c (t : transport Command value) w cmd,
        let cmds := new_sent w (fst (IndexV2.handler fs tr c t w)) in
        In cmd cmds -> fst cmd = "shape:get-shape" ->
        exists first id,
          hd_error cmds = Some first
          /\ t (sent w) first = Fulfilled id
          /\ snd cmd = JObj [("shapeId", id)]).
Proof.
  split.
  - intros fs fp cc tr c t w cmd cmds. subst cmds. revert cmd.
    destruct c; run_v1 fp; find_get_shape.
  - intros fs tr c t w cmd cmds. subst cmds. revert cmd.
    destruct c; run_v2; find_get_shape.
Qed.

Lemma get_shape_asks_for_returned_id_witness :
  In ("shape:get-shape", JObj [("shapeId", JStr "shp_1")])
     (new_sent empty_world
        (fst (IndexV1.handler no_filter no_filter plain_color text_result
                (IndexV1.UpdateShape "caller_id" (Some "Header") None None None
                   None None None None)
                (succeeds (JStr "shp_1")) empty_world)))
  /\ exists first id,
       hd_error
         (new_sent empty_world
            (fst (IndexV1.handler no_filter no_filter plain_color text_result
                    (IndexV1.UpdateShape "caller_id" (Some "Header") None None
                       None None None None None)
                    (succeeds (JStr "shp_1")) empty_world)))
       = Some first
       /\ succeeds (JStr "shp_1") [] first = Fulfilled id
       /\ JObj [("shapeId", JStr "shp_1")] = JObj [("shapeId", id)].
Proof.
  assert (Hin : In ("shape:get-shape", JObj [("shapeId", JStr "shp_1")])
                  (new_sent empty_world
                     (fst (IndexV1.handler no_filter no_filter plain_color
                             text_result
                             (IndexV1.UpdateShape "caller_id" (Some "Header")
                                None None None None None None None)
                             (succeeds (JStr "shp_1")) empty_world)))).
  { right. left. reflexivity. }
  split; [exact Hin|].
  destruct get_shape_asks_for_returned_id as [Hv1 _].
  exact (Hv1 no_filter no_filter plain_color text_result
           (IndexV1.UpdateShape "caller_id" (Some "Header") None None None
              None None None None)
           (succeeds (JStr "shp_1")) empty_world
           ("shape:get-shape", JObj [("shapeId", JStr "shp_1")]) Hin eq_refl).
Defined.

Lemma reports_console tr label k t w run :
  reports tr label k t w run ->
  console (fst run) = console w
  \/ exists e,
       console (fst run) = (console w ++ [e])%list
       /\ snd run = Fulfilled (tr (failure_text label e)).
Proof.
  unfold reports. intros (_ & _ & Hlast).
  destruct (last_reply t w (new_sent w (fst run))).
  - destruct Hlast as (_ & [(s & _ & Hc)|(e & Hs & Hc)]); eauto.
  - destruct Hlast as (Hs & Hc); eauto.
  - destruct Hlast as (_ & Hc); eauto.
Qed.

(** X7: an invocation of a handler writes at most one line with
    console.error, and what it writes is the error whose failure report it
    returns; a handler that is left pending or succeeds writes nothing. *)
Theorem handler_logs_what_it_reports :
  (forall fs fp cc tr c (t : transport Command value) w,
      let run := IndexV1.handler fs fp cc tr c t w in
      console (fst run) = console w
      \/ exists e label,
           console (fst run) = (console w ++ [e])%list
           /\ snd run = Fulfilled
                          (tr ("Failed to " ++ label ++ ": "
                                 ++ error_toString e)))
  /\ (forall fs tr c (t : transport Command value) w,
        let run := IndexV2.handler fs tr c t w in
        console (fst run) = console w
        \/ exists e label,
             console (fst run) = (console w ++ [e])%list
             /\ snd run = Fulfilled
                            (tr ("Failed to " ++ label ++ ": "
                                   ++ error_toString e))).
Proof.
  split.
  - intros fs fp cc tr c t w run.
    destruct (reports_console _ _ _ _ _ _ (handler_reports_v1 fs fp cc tr c t w))
      as [H|(e & Hc & Hs)]; [left; exact H|].
    right. exists e, (failure_label_v1 c). split; assumption.
  - intros fs tr c t w run.
    destruct (reports_console _ _ _ _ _ _ (handler_reports_v2 fs tr c t w))
      as [H|(e & Hc & Hs)]; [left; exact H|].
    right. exists e, (failure_label_v2 c). split; assumption.
Qed.

(** X9: a failure report does not mean that nothing was done.  When a
    handler has sent more than one command and the last one fails, the first
    command had been answered with a payload (the shape was created or
    updated in the application), and the handler still reports the failure
    of the whole operation. *)
Theorem handler_may_fail_after_mutation :
  forall fs fp cc tr c (t : transport Command value) w e,
    let run := IndexV1.handler fs fp cc tr c t w in
    let cmds := new_sent w (fst run) in
    (2 <= length cmds)%nat ->
    last_reply t w cmds = Rejected e ->
    (exists first id,
        hd_error cmds = Some first /\ t (sent w) first = Fulfilled id)
    /\ exists label,
         snd run = Fulfilled
                     (tr ("Failed to " ++ label ++ ": " ++ error_toString e)).
Proof.
  intros fs fp cc tr c t w e run cmds Hlen Hlast. split.
  - subst cmds run. revert Hlen Hlast.
    destruct c; run_v1 fp; cbn [length hd_error]; intros Hlen Hlast;
      first [ lia | eexists _, _; split; [reflexivity|eassumption] ].
  - destruct (reports_failures _ _ _ _ _ _ (handler_reports_v1 fs fp cc tr c t w))
      as (_ & H).
    exists (failure_label_v1 c). exact (proj1 (H e Hlast)).
Qed.

Lemma handler_may_fail_after_mutation_witness :
  (2 <= length
          (new_sent empty_world
             (fst (IndexV1.handler no_filter no_filter plain_color text_result
                     (IndexV1.CreateFrame IndexV1.phone "Home" 0 0 None)
                     (fails_after 1 (JStr "shp_1") connection_lost)
                     empty_world))))%nat
  /\ exists first id,
       hd_error
         (new_sent empty_world
            (fst (IndexV1.handler no_filter no_filter plain_color text_result
                    (IndexV1.CreateFrame IndexV1.phone "Home" 0 0 None)
                    (fails_after 1 (JStr "shp_1") connection_lost)
                    empty_world)))
       = Some first
       /\ fails_after 1 (JStr "shp_1") connection_lost [] first = Fulfilled id.
Proof.
  assert (Hlen : (2 <= length
          (new_sent empty_world
             (fst (IndexV1.handler no_filter no_filter plain_color text_result
                     (IndexV1.CreateFrame IndexV1.phone "Home" 0 0 None)
                     (fails_after 1 (JStr "shp_1") connection_lost)
                     empty_world))))%nat).
  { vm_compute. lia. }
  split; [exact Hlen|].
  apply (handler_may_fail_after_mutation no_filter no_filter plain_color
           text_result (IndexV1.CreateFrame IndexV1.phone "Home" 0 0 None)
           (fails_after 1 (JStr "shp_1") connection_lost) empty_world
           connection_lost Hlen).
  reflexivity.
Defined.

(** X10: when shape:move fails, move_shape of either catalogue reports a
    failure to get available icons: its report is, word for word, the one
    get_available_icons returns when its own command fails with the same
    error. *)
Theorem move_shape_failure_names_icons :
  forall tr shapeId dx dy (t : transport Command value) w e,
    t (sent w) ("shape:move",
                JObj [("shapeId", JStr shapeId); ("dx", JNum dx);
                      ("dy", JNum dy)])
    = Rejected e ->
    snd (IndexV1.move_shape tr shapeId dx dy t w)
    = Fulfilled (tr ("Failed to get available icons: " ++ error_toString e))
    /\ snd (IndexV1.move_shape tr shapeId dx dy t w)
       = snd (IndexV1.get_available_icons tr (fails e) w)
    /\ snd (IndexV2.move_shape tr shapeId dx dy t w)
       = snd (IndexV2.get_available_icons tr (fails e) w).
Proof.
  intros tr shapeId dx dy t w e Hreply.
  unfold_run. unfold fails, Command in *. rewrite Hreply.
  repeat split; reflexivity.
Qed.

Lemma move_shape_failure_names_icons_witness :
  fails connection_lost []
    ("shape:move",
     JObj [("shapeId", JStr "shp_1"); ("dx", JNum 10); ("dy", JNum (-5))])
  = Rejected connection_lost
  /\ snd (IndexV1.move_shape text_result "shp_1" 10 (-5)
            (fails connection_lost) empty_world)
     = Fulfilled
         (text_result ("Failed to get available icons: "
                         ++ error_toString connection_lost)).
Proof.
  split; [reflexivity|].
  apply (move_shape_failure_names_icons text_result "shp_1" 10 (-5)
           (fails connection_lost) empty_world connection_lost).
  reflexivity.
Defined.

(** X11: apart from the conversion of colours, five handlers are the same in
    the two catalogues: with a convertColor that passes a colour name
    through, create_rectangle, create_ellipse and create_line of the first
    catalogue run exactly as those of the second called with the same name,
    and move_shape and get_available_icons do so as they are. *)
Theorem catalogues_agree_up_to_colours :
  forall fs tr (t : transport Command value) w,
    (forall name parentId x y wd ht fill stroke corners,
        IndexV1.create_rectangle fs (opt JStr) tr name parentId x y wd ht fill
          stroke corners t w
        = IndexV2.create_rectangle fs tr (Some name) parentId x y wd ht fill
            stroke corners t w)
    /\ (forall name parentId x y wd ht fill stroke,
          IndexV1.create_ellipse fs (opt JStr) tr name parentId x y wd ht fill
            stroke t w
          = IndexV2.create_ellipse fs tr (Some name) parentId x y wd ht fill
              stroke t w)
    /\ (forall name parentId points fill stroke,
          IndexV1.create_line fs (opt JStr) tr name parentId points fill
            stroke t w
          = IndexV2.create_line fs tr (Some name) parentId points fill stroke
              t w)
    /\ (forall shapeId dx dy,
          IndexV1.move_shape tr shapeId dx dy t w
          = IndexV2.move_shape tr shapeId dx dy t w)
    /\ IndexV1.get_available_icons tr t w = IndexV2.get_available_icons tr t w.
Proof.
  intros fs tr t w. repeat split; intros; reflexivity.
Qed.

(* ===================================================================== *)
(** ** Further properties: single handlers *)
(* ===================================================================== *)

(** X13: create_icon always asks for a square icon whose side is the entry
    of the size table for the size argument, one of 16, 24, 32 and 48; the
    fallback of 24 written in the handler never decides the size. *)
Theorem create_icon_is_square :
  forall fs cc tr name parentId x y size stroke (t : transport Command value) w,
    exists side,
      IndexV1.icon_size_table size = Some side
      /\ In side icon_sizes
      /\ hd_error
           (new_sent w
              (fst (IndexV1.create_icon fs cc tr name parentId x y size stroke
                      t w)))
         = Some ("shape:create-icon",
                 JObj [("iconName", JStr name);
                       ("shapeProps",
                        JObj [("left", JNum x);
                              ("top", JNum y);
                              ("width", JNum side);
                              ("height", JNum side);
                              ("strokeColor", cc stroke)]);
                       ("parentId", opt JStr parentId)]).
Proof.
  intros fs cc tr name parentId x y size stroke t w.
  destruct size; run_v1 fs; cbn [hd_error];
    (eexists; split; [reflexivity|]; split;
     [unfold icon_sizes; simpl; tauto | reflexivity]).
Qed.




(** Mapping stops at the first element on which the callback throws. *)
Lemma map_sum_first_failure {A B : Type} (f : A -> error + B) before x after e :
  Forall (fun a => exists b, f a = inr b) before ->
  f x = inl e ->
  map_sum f (before ++ x :: after) = inl e.
Proof.
  intros Hbefore Hx. induction Hbefore as [|a rest [b Hb] _ IH]; simpl.
  - now rewrite Hx.
  - now rewrite Hb, IH.
Qed.

(** Mapping succeeds exactly when the callback returns on every element, and
    then gives the results in order. *)
Lemma map_sum_Forall2 {A B : Type} (f : A -> error + B) xs ys :
  map_sum f xs = inr ys <-> Forall2 (fun x y => f x = inr y) xs ys.
Proof.
  revert ys. induction xs as [|x rest IH]; intros ys; simpl.
  - split.
    + intros H. injection H as <-. constructor.
    + intros H. inversion H. reflexivity.
  - split.
    + destruct (f x) as [e|y] eqn:Hx; [discriminate|].
      destruct (map_sum f rest) as [e|ys'] eqn:Hrest; [discriminate|].
      intros H. injection H as <-. constructor; [exact Hx|].
      apply IH. reflexivity.
    + intros H. inversion H as [|x' y xs' ys' Hx Hrest]; subst.
      rewrite Hx. apply IH in Hrest. now rewrite Hrest.
Qed.

(** X16: get_all_pages reports one entry for every page of children, in the
    order of the pages, each entry being what filterPage returned for that
    page. *)
Theorem get_all_pages_lists_every_page :
  forall fp tr exportShapes (t : transport Command value) w docData pages
         filtered,
    t (sent w) ("doc:get", JObj [("exportPages", JBool true);
                                 ("exportShapes", JBool exportShapes)])
    = Fulfilled docData ->
    get_prop docData "children" = inr (JArr pages) ->
    Forall2 (fun page entry => fp page = inr entry) pages filtered ->
    snd (IndexV1.get_all_pages fp tr exportShapes t w)
    = Fulfilled (tr ("The all pages data: " ++
                     str_of (JSON_stringify (JArr filtered))))
    /\ length filtered = length pages.
Proof.
  intros fp tr exportShapes t w docData pages filtered Hreply Hchildren Hall.
  split; [|symmetry; eapply Forall2_length; eassumption].
  apply map_sum_Forall2 in Hall.
  rewrite (get_all_pages_run fp tr _ _ _ _ Hreply). cbv zeta.
  rewrite Hchildren. cbn [isArray IndexV1.elements]. rewrite Hall.
  reflexivity.
Qed.

Lemma get_all_pages_lists_every_page_witness :
  snd (IndexV1.get_all_pages keep_id text_result false
         (succeeds two_pages_doc) empty_world)
  = Fulfilled
      (text_result
         ("The all pages data: " ++
          str_of (JSON_stringify (JArr [JObj [("id", JStr "p1")];
                                        JObj [("id", JStr "p2")]]))))
  /\ length [JObj [("id", JStr "p1")]; JObj [("id", JStr "p2")]] = 2%nat.
Proof.
  apply (get_all_pages_lists_every_page keep_id text_result false
           (succeeds two_pages_doc) empty_world two_pages_doc
           [JObj [("id", JStr "p1"); ("internal", JBool true)];
            JObj [("id", JStr "p2")]]).
  - reflexivity.
  - reflexivity.
  - repeat constructor.
Defined.

(** X17: when filterPage throws on a page, get_all_pages reports that
    failure, the one of the first such page, and no partial list; the error
    is written to the console. *)
Theorem get_all_pages_fails_on_first_bad_page :
  forall fp tr exportShapes (t : transport Command value) w docData before
         page after e,
    t (sent w) ("doc:get", JObj [("exportPages", JBool true);
                                 ("exportShapes", JBool exportShapes)])
    = Fulfilled docData ->
    get_prop docData "children" = inr (JArr (before ++ page :: after)) ->
    Forall (fun p => exists entry, fp p = inr entry) before ->
    fp page = inl e ->
    let run := IndexV1.get_all_pages fp tr exportShapes t w in
    snd run = Fulfilled (tr ("Failed to get page data: " ++ error_toString e))
    /\ console (fst run) = (console w ++ [e])%list.
Proof.
  intros fp tr exportShapes t w docData before page after e Hreply Hchildren
    Hbefore Hpage run. subst run.
  rewrite (get_all_pages_run fp tr _ _ _ _ Hreply). cbv zeta.
  rewrite Hchildren. cbn [isArray IndexV1.elements].
  rewrite (map_sum_first_failure fp before page after e Hbefore Hpage).
  split; reflexivity.
Qed.

Lemma get_all_pages_fails_on_first_bad_page_witness :
  snd (IndexV1.get_all_pages need_id text_result false (succeeds broken_doc)
         empty_world)
  = Fulfilled (text_result ("Failed to get page data: "
                              ++ error_toString (Error "page without id")))
  /\ console (fst (IndexV1.get_all_pages need_id text_result false
                     (succeeds broken_doc) empty_world))
     = [Error "page without id"].
Proof.
  apply (get_all_pages_fails_on_first_bad_page need_id text_result false
           (succeeds broken_doc) empty_world broken_doc
           [JObj [("id", JStr "p1")]] (JObj [("name", JStr "no id")]) [JNull]
           (Error "page without id")).
  - reflexivity.
  - reflexivity.
  - repeat constructor. eexists. reflexivity.
  - reflexivity.
Defined.

(** X18: when doc:get answers with something that is not an object (null,
    nothing, a number, a string, a boolean), get_all_pages does not report a
    list: the access to children throws a TypeError, which the handler logs
    and reports as a failure to get page data, after its single command. *)
Theorem get_all_pages_rejects_non_object :
  forall fp tr exportShapes (t : transport Command value) w docData,
    t (sent w) ("doc:get", JObj [("exportPages", JBool true);
                                 ("exportShapes", JBool exportShapes)])
    = Fulfilled docData ->
    is_object docData = false ->
    let run := IndexV1.get_all_pages fp tr exportShapes t w in
    exists message,
      snd run = Fulfilled
                  (tr ("Failed to get page data: TypeError: " ++ message))
      /\ console (fst run) = (console w ++ [TypeError message])%list
      /\ new_sent w (fst run)
         = [("doc:get", JObj [("exportPages", JBool true);
                              ("exportShapes", JBool exportShapes)])].
Proof.
  intros fp tr exportShapes t w docData Hreply Hobject run. subst run.
  rewrite (get_all_pages_run fp tr _ _ _ _ Hreply). cbv zeta.
  destruct docData; try discriminate Hobject;
    cbn [get_prop can_assign isArray fst snd sent console];
    (eexists; split; [reflexivity|]; split; [reflexivity|];
     apply new_sent_app).
Qed.

Lemma get_all_pages_rejects_non_object_witness :
  exists message,
    snd (IndexV1.get_all_pages keep_id text_result false (succeeds (JNum 5))
           empty_world)
    = Fulfilled (text_result ("Failed to get page data: TypeError: "
                                ++ message))
    /\ console (fst (IndexV1.get_all_pages keep_id text_result false
                       (succeeds (JNum 5)) empty_world))
       = [TypeError message].
Proof.
  destruct (get_all_pages_rejects_non_object keep_id text_result false
              (succeeds (JNum 5)) empty_world (JNum 5) eq_refl eq_refl)
    as (message & Hrun & Hconsole & _).
  exists message. split; assumption.
Defined.

(** X19: the object create_frame reports names each property once: when
    the filtered shape is an object, the reported object is that shape with
    top and height set to the adjusted numbers; both are present with these
    values, and no property name occurs twice. *)
Theorem create_frame_reports_each_property_once :
  forall fs cc tr frameType name x y fill (t : transport Command value) w
         data shapeProps,
    let header := IndexV1.FRAME_HEADER_HEIGHT frameType in
    let tall := IndexV1.height (IndexV1.FRAME_SIZE frameType) + header in
    let run := IndexV1.create_frame fs cc tr frameType name x y fill t w in
    last_reply t w (new_sent w (fst run)) = Fulfilled data ->
    fs data = inr (JObj shapeProps) ->
    let props := obj_set "height" (JNum tall)
                   (obj_set "top" (JNum (y - header))
                      (spread (JObj shapeProps))) in
    snd run = Fulfilled
                (tr ("Created frame: " ++
                     str_of (JSON_stringify (JObj props))))
    /\ NoDup (map fst props)
    /\ obj_get "top" props = Some (JNum (y - header))
    /\ obj_get "height" props = Some (JNum tall).
Proof.
  intros fs cc tr frameType name x y fill t w data shapeProps header tall run
    Hlast Hshape props.
  split; [|split; [|split]].
  - exact (create_frame_report fs cc tr frameType name x y fill t w data
             (JObj shapeProps) Hlast Hshape).
  - apply obj_set_NoDup, obj_set_NoDup, spread_object_NoDup.
  - subst props. rewrite obj_get_set_other by discriminate.
    apply obj_get_set_same.
  - apply obj_get_set_same.
Qed.

Lemma create_frame_reports_each_property_once_witness :
  snd (IndexV1.create_frame no_filter plain_color text_result IndexV1.browser
         "Home" 0 100 None (succeeds frame_shape) empty_world)
  = Fulfilled
      (text_result
         ("Created frame: " ++
          str_of (JSON_stringify
                    (JObj [("id", JStr "shp_1"); ("top", JNum 24);
                           ("height", JNum 676); ("width", JNum 800)]))))
  /\ NoDup ["id"; "top"; "height"; "width"].
Proof.
  destruct (create_frame_reports_each_property_once no_filter plain_color
              text_result IndexV1.browser "Home" 0 100 None
              (succeeds frame_shape) empty_world frame_shape
              [("id", JStr "shp_1"); ("top", JNum 0); ("height", JNum 600);
               ("width", JNum 800)] eq_refl eq_refl)
    as (Hrun & Hnodup & _).
  split; [exact Hrun | exact Hnodup].
Defined.

(** X20: update_shape of the first catalogue never sends a text: its schema
    accepts a text argument, but the command carries, as shapeProps, the
    eight properties the handler destructures, and text is not among
    them. *)
Theorem update_shape_never_sends_text :
  forall fs cc tr shapeId name wd ht stroke fill color fontSize corners
         (t : transport Command value) w,
    exists props,
      hd_error
        (new_sent w
           (fst (IndexV1.update_shape fs cc tr shapeId name wd ht stroke fill
                   color fontSize corners t w)))
      = Some ("shape:update-shape",
              JObj [("shapeId", JStr shapeId); ("shapeProps", JObj props)])
      /\ map fst props
         = ["name"; "width"; "height"; "fillColor"; "strokeColor";
            "fontColor"; "fontSize"; "corners"]
      /\ obj_get "text" props = None.
Proof.
  intros fs cc tr shapeId name wd ht stroke fill color fontSize corners t w.
  run_v1 fs; cbn [hd_error];
    (eexists; split; [reflexivity|]; split; reflexivity).
Qed.

(** X21: two handlers of the fetch based server accept an argument that they
    never transmit: the request of create_frame is that of a params object
    without fillColor, and the request of create_text that of a params
    object without fontSize. *)
Theorem fetch_handlers_drop_accepted_arguments :
  forall (t : transport Part000.Request Part000.Response) w,
    (forall name x y wd ht,
        exists params,
          new_sent w (fst (Part000.create_frame name x y wd ht t w))
          = [posted "/create_shape_from_library" (JObj params)]
          /\ obj_get "fillColor" params = None)
    /\ (forall name parentId x y text color,
          exists params,
            new_sent w
              (fst (Part000.create_text name parentId x y text color t w))
            = [posted "/create_shape" (JObj params)]
            /\ obj_get "fontSize" params = None).
Proof.
  intros t w. split; intros.
  - unfold Part000.create_frame.
    match goal with
    | |- context [bind (Part000.requestToFrame0 ?slug (JObj ?params)) _ t w] =>
        destruct (fetch_then_wrap slug (JObj params) t w) as (_ & Hsent & _);
        exists params; split; [exact Hsent | reflexivity]
    end.
  - unfold Part000.create_text.
    match goal with
    | |- context [bind (Part000.requestToFrame0 ?slug (JObj ?params)) _ t w] =>
        destruct (fetch_then_wrap slug (JObj params) t w) as (_ & Hsent & _);
        exists params; split; [exact Hsent | reflexivity]
    end.
Qed.

(* ===================================================================== *)
(** ** Numbers: checks of the model against the language *)
(* ===================================================================== *)

#[local] Set Warnings "-inexact-float".

(** What the language prints for some numbers: the shortest digits that
    read back, exponent notation from 1e21 on and below 1e-6, and the
    rounding of a large subtraction. *)
Example number_toString_examples :
  map number_toString
    [100; -5; 0.1; 0.1 + 0.2; 1e21; 1e-7; 123456789012345680000;
     1152921504606846976 - 76; 0.1 - 76]
  = ["100"; "-5"; "0.1"; "0.30000000000000004"; "1e+21"; "1e-7";
     "123456789012345680000"; "1152921504606846800"; "-75.9"].
Proof. vm_compute. reflexivity. Qed.

(** The top create_frame sends for a browser frame asked at 2^60: the
    subtraction of the header height rounds to the next number below. *)
Example create_frame_top_rounds :
  hd_error
    (new_sent empty_world
       (fst (IndexV1.create_frame no_filter plain_color text_result
               IndexV1.browser "Home" 0 1152921504606846976 None
               never_replies empty_world)))
  = Some ("shape:create-shape-from-library-by-query",
          JObj [("query", JStr "Browser&@Frame");
                ("shapeProps",
                 JObj [("name", JStr "Home");
                       ("left", JNum 0);
                       ("top", JNum 1152921504606846848);
                       ("width", JNum 800);
                       ("height", JNum 676);
                       ("fillColor", JUndefined)])]).
Proof. vm_compute. reflexivity. Qed.
